(** * The Organ Adjustment Engine (OAE): a shallow embedding of
    [src/oae.py] and [src/core.py]

    The repository holds two engines with the same interface
    ([resonance], [decay_tick], [checkpoint]): [src/oae.py], whose organs
    carry numeric properties, and [src/core.py], whose organs carry only
    metadata.  Each file is embedded in a module of its own ([Oae],
    [Core]) over a common model of the Python values they handle ([Py]).

    Modelling choices, fixed here once:
    - a Python [float] is an exact rational ([Q]); rounding, infinities
      and NaN are not modelled;
    - a [str] is a [string]; [str.encode('utf-8')] is the identity on it;
    - a [dict] is an insertion-ordered association list with unique keys
      ([Py.dict]); assigning to a present key keeps its position;
    - every organ owns its [properties] dict (no two organs share one);
    - [time.time()] is an argument [now] of the operation that reads it;
    - a raised exception is the result [None];
    - the values of a [Dict[str, Any]] are [None], booleans, floats and
      strings ([Py.pyval]); lists, dicts and other containers, which are
      unhashable as an [organ_id], are outside the model;
    - [float(s)] for a [str] [s], [hashlib.sha256] and [json.dumps]
      belong to the Python runtime and are parameters ([Py.Numerals],
      [Py.Codec]);
    - the file system is a parameter too ([Py.Os]): [os.makedirs] and
      the write of a file act on a state of the operating system and
      either of them may raise. *)

From Stdlib Require Import QArith Qminmax Lqa ZArith String Ascii List Bool Lia.
From Stdlib Require Import DecimalString.
Import ListNotations.

Open Scope string_scope.
Open Scope Q_scope.

(** ** Python values and built-ins *)

Module Py.

Definition float := Q.

(** [a < b] and [a > b] on floats, as booleans. *)
Definition ltb (a b : float) : bool :=
  match a ?= b with Lt => true | _ => false end.

Definition gtb (a b : float) : bool := ltb b a.

(** [min(a, b)]: the first argument unless the second is smaller. *)
Definition min (a b : float) : float := if ltb b a then b else a.

(** [max(a, b)]: the first argument unless the second is larger. *)
Definition max (a b : float) : float := if gtb b a then b else a.

(** The values a [Dict[str, Any]] of the engine holds. *)
Inductive pyval : Type :=
| PNone
| PBool (b : bool)
| PFloat (x : float)
| PStr (s : string).

(** The documents [json.dumps] serializes: an object keeps the order of
    its members. *)
#[warnings="-register-all"]
Inductive json : Type :=
| JNull
| JBool (b : bool)
| JNumber (x : float)
| JString (s : string)
| JObject (members : list (string * json)).

(** The keyword arguments of [json.dumps] the engines pass. *)
Record dumps_options : Type := {
  indent : option nat;
  separators : option (string * string);
  ensure_ascii : bool
}.

(** What the engines take from the Python runtime: the numeral parser
    behind [float(s)] for a [str] ([None] when it raises [ValueError]),
    and the two library calls of [checkpoint]. *)
Class Numerals : Type :=
  float_of_str : string -> option float.

Class Codec : Type := {
  (** [hashlib.sha256(data).hexdigest()] *)
  sha256 : string -> string;
  (** [json.dumps(doc, **options)] *)
  json_dumps : dumps_options -> json -> string
}.

(** The operating system under [checkpoint]: its states, and the two
    calls that act on them, each [None] when it raises ([OSError] and the
    like: a missing parent directory, an empty path, a refused
    permission, a full disk). *)
Class Os : Type := {
  world : Type;
  (** [os.makedirs(path, exist_ok=True)] *)
  makedirs : string -> world -> option world;
  (** [with open(path, "wb") as f: f.write(data)] *)
  write_file : string -> string -> world -> option world
}.

(** Sequencing of operations that may raise. *)
Definition bind {A B : Type} (m : option A) (k : A -> option B) : option B :=
  match m with
  | Some a => k a
  | None => None
  end.

(** [float(v)]: [None] when it raises. *)
Definition to_float {num : Numerals} (v : pyval) : option float :=
  match v with
  | PNone => None
  | PBool b => Some (if b then 1 else 0)
  | PFloat x => Some x
  | PStr s => float_of_str s
  end.

(** Truth value of [v] in a condition. *)
Definition truthy (v : pyval) : bool :=
  match v with
  | PNone => false
  | PBool b => b
  | PFloat x => negb (Qeq_bool x 0)
  | PStr s => negb (s =? "")
  end.

Definition json_of_pyval (v : pyval) : json :=
  match v with
  | PNone => JNull
  | PBool b => JBool b
  | PFloat x => JNumber x
  | PStr s => JString s
  end.

(** *** Dictionaries *)

Section Dict.
Context {V : Type}.

Definition dict : Type := list (string * V).

(** [d.get(k)] *)
Fixpoint get (d : dict) (k : string) : option V :=
  match d with
  | [] => None
  | (k', v) :: d' => if k' =? k then Some v else get d' k
  end.

(** [d.get(k, dflt)] *)
Definition get_or (d : dict) (k : string) (dflt : V) : V :=
  match get d k with Some v => v | None => dflt end.

(** [k in d] *)
Definition mem (d : dict) (k : string) : bool :=
  match get d k with Some _ => true | None => false end.

(** [d[k] = v] *)
Fixpoint set (d : dict) (k : string) (v : V) : dict :=
  match d with
  | [] => [(k, v)]
  | (k', v') :: d' =>
      if k' =? k then (k', v) :: d' else (k', v') :: set d' k v
  end.

Definition keys (d : dict) : list string := map fst d.
End Dict.

Arguments dict V : clear implicits.

(** *** Strings *)

(** [sub in s] *)
Fixpoint contains (sub s : string) : bool :=
  prefix sub s
  || match s with
     | EmptyString => false
     | String _ s' => contains sub s'
     end.

(** [s[:n]] *)
Definition take (n : nat) (s : string) : string := substring 0 n s.

(** [s.split(sep)[-1]] for a one-character [sep]: what follows the last
    [sep], the whole of [s] when it has none. *)
Fixpoint last_segment_from (sep : ascii) (acc s : string) : string :=
  match s with
  | EmptyString => acc
  | String c s' =>
      if Ascii.eqb c sep then last_segment_from sep "" s'
      else last_segment_from sep (acc ++ String c "") s'
  end.

Definition last_segment (sep : ascii) (s : string) : string :=
  last_segment_from sep "" s.

(** [s.endswith(c)] for a one-character [c]. *)
Fixpoint ends_with (c : ascii) (s : string) : bool :=
  match s with
  | EmptyString => false
  | String a s' =>
      match s' with
      | EmptyString => Ascii.eqb a c
      | String _ _ => ends_with c s'
      end
  end.

(** [os.path.join(a, b)] (posixpath): an absolute [b] replaces [a]. *)
Definition path_join (a b : string) : string :=
  if prefix "/" b then b
  else if (a =? "") || ends_with "/" a then a ++ b
  else a ++ "/" ++ b.

(** *** Fixed-point formatting: [f"{x:.Nf}"] *)

Definition digits (n : Z) : string :=
  NilZero.string_of_uint (N.to_uint (Z.to_N n)).

Fixpoint zeros (n : nat) : string :=
  match n with
  | O => ""
  | S n' => String "0" (zeros n')
  end.

(** [x] scaled by [10^prec] and rounded to the nearest integer, ties to
    even; [x] is taken non-negative. *)
Definition round_scaled (prec : nat) (x : float) : Z :=
  let n := (Z.abs (Qnum x) * 10 ^ Z.of_nat prec)%Z in
  let d := Zpos (Qden x) in
  let q := (n / d)%Z in
  let r := (n mod d)%Z in
  if ((d <? 2 * r) || ((2 * r =? d) && Z.odd q))%Z then (q + 1)%Z else q.

Definition format_f (prec : nat) (x : float) : string :=
  let ds := digits (round_scaled prec x) in
  let ds := zeros (S prec - String.length ds)%nat ++ ds in
  let whole := (String.length ds - prec)%nat in
  (if (Qnum x <? 0)%Z then "-" else "")
  ++ substring 0 whole ds
  ++ (match prec with
      | O => ""
      | S _ => "." ++ substring whole prec ds
      end).

End Py.


Notation "x <- m ;; k" := (Py.bind m (fun x => k))
  (at level 61, m at next level, right associativity).
Notation "' pat <- m ;; k" := (Py.bind m (fun x => let 'pat := x in k))
  (at level 61, pat pattern, m at next level, right associativity).

(** ** [src/oae.py] *)

Module Oae.
Import Py.

(** [sha256_hex], on data already encoded. *)
Definition sha256_hex {codec : Codec} (data : string) : string := sha256 data.

Record OAEParams : Type := {
  memory_decay : float;
  entropy_guard : float;
  learn_rate : float;
  recovery_rate : float
}.

(** The dataclass defaults of [OAEParams]. *)
Definition default_params : OAEParams :=
  {| memory_decay := 0.10; entropy_guard := 0.85;
     learn_rate := 0.05; recovery_rate := 0.20 |}.

Record DigitalOrgan : Type := {
  organ_id : string;
  schema : string;
  volatile : bool;
  properties : dict float
}.

(** The [default_factory] of [DigitalOrgan.properties]. *)
Definition default_properties : dict float :=
  [("strength", 10.0); ("fatigue", 0.0); ("integrity", 100.0)].

Definition with_properties (o : DigitalOrgan) (props : dict float)
  : DigitalOrgan :=
  {| organ_id := organ_id o; schema := schema o; volatile := volatile o;
     properties := props |}.

Record Soken : Type := {
  did : string;
  ddna_sha256 : string;
  digital_organs : dict DigitalOrgan;
  meta : dict pyval
}.

(** The engine object: [self.soken], [self.params], [self._ckpt_dir]. *)
Record OAE : Type := {
  soken : Soken;
  params : OAEParams;
  ckpt_dir : string
}.

(** [OAE.__init__] *)
Definition init (s : Soken) (p : OAEParams) : OAE :=
  {| soken := s; params := p; ckpt_dir := "./oae_checkpoints" |}.

Definition with_organs (self : OAE) (organs : dict DigitalOrgan) : OAE :=
  {| soken := {| did := did (soken self);
                 ddna_sha256 := ddna_sha256 (soken self);
                 digital_organs := organs;
                 meta := meta (soken self) |};
     params := params self; ckpt_dir := ckpt_dir self |}.

Definition with_meta (self : OAE) (m : dict pyval) : OAE :=
  {| soken := {| did := did (soken self);
                 ddna_sha256 := ddna_sha256 (soken self);
                 digital_organs := digital_organs (soken self);
                 meta := m |};
     params := params self; ckpt_dir := ckpt_dir self |}.

(** The report [resonance] starts from (line 62). *)
Definition ignored : dict pyval :=
  [("status", PStr "ignored"); ("impact", PFloat 0.0)].

(** [target_id and target_id in self.soken.digital_organs], then
    [self.soken.digital_organs[target_id]]: the key and the organ it
    names.  Only a [str] can be a key of the organ dict. *)
Definition find_target (target_id : pyval) (organs : dict DigitalOrgan)
  : option (string * DigitalOrgan) :=
  if truthy target_id then
    match target_id with
    | PStr k =>
        match get organs k with
        | Some organ => Some (k, organ)
        | None => None
        end
    | _ => None
    end
  else None.

(** Line 67. *)
Definition effective_impact (intensity : float) (p : OAEParams) : float :=
  intensity * (1.0 - (entropy_guard p * 0.3)).

(** The motor branch (lines 70-83): the new properties and the report. *)
Definition motor_update (p : OAEParams) (target_id : pyval)
    (intensity : float) (props : dict float)
  : option (dict float * dict pyval) :=
  let current_str := get_or props "strength" 10.0 in
  let gain := effective_impact intensity p * learn_rate p in
  let props := set props "strength" (min 100.0 (current_str + gain)) in
  let current_fatigue := get_or props "fatigue" 0.0 in
  let fatigue_spike := intensity * 10.0 in
  let props := set props "fatigue" (min 100.0 (current_fatigue + fatigue_spike)) in
  new_strength <- get props "strength" ;;
  Some (props,
        [("organ", target_id);
         ("strength_gain", PStr ("+" ++ format_f 4 gain));
         ("new_strength", PFloat new_strength);
         ("fatigue_spike", PStr ("+" ++ format_f 2 fatigue_spike))]).

(** [OAE.resonance]: the report and the engine after the call. *)
Definition resonance {num : Numerals} (self : OAE) (now : float)
    (context : dict pyval) : option (dict pyval * OAE) :=
  let target_id := get_or context "organ_id" PNone in
  intensity <- to_float (get_or context "intensity" (PFloat 0.5)) ;;
  match find_target target_id (digital_organs (soken self)) with
  | None => Some (ignored, self)
  | Some (k, organ) =>
      '(report, organ) <-
        (if contains "motor" (schema organ) then
           '(props, report) <-
             motor_update (params self) target_id intensity (properties organ) ;;
           Some (report, with_properties organ props)
         else if contains "cognitive" (schema organ) then
           Some (ignored, organ)
         else Some (ignored, organ)) ;;
      let self := with_organs self (set (digital_organs (soken self)) k organ) in
      let m := set (meta (soken self)) "last_active_organ" target_id in
      let m := set m "last_active_ts" (PFloat now) in
      Some (report, with_meta self m)
  end.

(** The summary [decay_tick] returns. *)
Record DecaySummary : Type := {
  recovered : list string;
  atrophied : list string
}.

(** Lines 103-106: recovery of one organ's fatigue; the properties after
    it and what is appended to [recovered]. *)
Definition recover (p : OAEParams) (oid : string) (props : dict float)
  : option (dict float * list string) :=
  if gtb (get_or props "fatigue" 0) 0 then
    fatigue <- get props "fatigue" ;;
    let loss := fatigue * recovery_rate p in
    fatigue <- get props "fatigue" ;;
    let props := set props "fatigue" (max 0.0 (fatigue - loss)) in
    Some (props, [oid ++ " (fatigue -" ++ format_f 2 loss ++ ")"])
  else Some (props, []).

(** Lines 108-111: atrophy of one organ's strength; the properties after
    it and what is appended to [atrophied]. *)
Definition atrophy (p : OAEParams) (oid : string) (props : dict float)
  : option (dict float * list string) :=
  if gtb (get_or props "strength" 0) 10.0
     && ltb (get_or props "fatigue" 0) 1.0 then
    strength <- get props "strength" ;;
    let decay_amt := strength * (memory_decay p * 0.01) in
    strength <- get props "strength" ;;
    let props := set props "strength" (strength - decay_amt) in
    Some (props, [oid ++ " (str -" ++ format_f 4 decay_amt ++ ")"])
  else Some (props, []).

(** The body of the loop of [decay_tick] for one item. *)
Definition decay_organ (p : OAEParams) (oid : string) (organ : DigitalOrgan)
  : option (DigitalOrgan * list string * list string) :=
  '(props, rec) <- recover p oid (properties organ) ;;
  '(props, atr) <- atrophy p oid props ;;
  Some (with_properties organ props, rec, atr).

(** The loop over [self.soken.digital_organs.items()]: organs are
    updated in place, in the order of the dict. *)
Fixpoint decay_loop (p : OAEParams) (items : dict DigitalOrgan)
  : option (dict DigitalOrgan * list string * list string) :=
  match items with
  | [] => Some ([], [], [])
  | (oid, organ) :: rest =>
      '(organ, rec, atr) <- decay_organ p oid organ ;;
      '(rest, recs, atrs) <- decay_loop p rest ;;
      Some ((oid, organ) :: rest, (rec ++ recs)%list, (atr ++ atrs)%list)
  end.

(** [OAE.decay_tick] *)
Definition decay_tick (self : OAE) : option (DecaySummary * OAE) :=
  '(organs, recs, atrs) <-
    decay_loop (params self) (digital_organs (soken self)) ;;
  Some ({| recovered := recs; atrophied := atrs |}, with_organs self organs).

(** The [snapshot] dict of [checkpoint] (lines 119-129). *)
Definition snapshot (self : OAE) (now : float) (label : string) : json :=
  JObject
    [("did", JString (did (soken self)));
     ("timestamp", JNumber now);
     ("label", JString label);
     ("organs",
      JObject
        (map (fun kv : string * DigitalOrgan =>
                (fst kv,
                 JObject
                   [("id", JString (organ_id (snd kv)));
                    ("props",
                     JObject (map (fun p : string * float =>
                                     (fst p, JNumber (snd p)))
                                  (properties (snd kv))))]))
             (digital_organs (soken self))))].

(** [json.dumps(snapshot, indent=2).encode('utf-8')] *)
Definition data_bytes {codec : Codec} (self : OAE) (now : float) (label : string)
  : string :=
  json_dumps {| indent := Some 2%nat; separators := None; ensure_ascii := true |}
             (snapshot self now label).

(** [file_hash], [filename] and [path] of [checkpoint] (lines 132-134). *)
Definition file_hash {codec : Codec} (self : OAE) (now : float)
    (label : string) : string :=
  take 12 (sha256_hex (data_bytes self now label)).

Definition filename {codec : Codec} (self : OAE) (now : float)
    (label : string) : string :=
  last_segment ":" (did (soken self)) ++ "_" ++ label ++ "_"
  ++ file_hash self now label ++ ".json".

Definition path {codec : Codec} (self : OAE) (now : float) (label : string)
  : string :=
  path_join (ckpt_dir self) (filename self now label).

(** [OAE.checkpoint]: the path returned and the state of the operating
    system after the write; [None] when [os.makedirs] or the write
    raises. *)
Definition checkpoint {codec : Codec} {os : Os} (self : OAE) (now : float)
    (label : string) (w : world) : option (string * world) :=
  w <- makedirs (ckpt_dir self) w ;;
  w <- write_file (path self now label) (data_bytes self now label) w ;;
  Some (path self now label, w).

End Oae.

(** ** [src/core.py] *)

Module Core.
Import Py.

Definition sha256_hex {codec : Codec} (b : string) : string := sha256 b.

Record OAEParams : Type := {
  memory_decay : float;
  entropy_guard : float;
  learn_rate : float
}.

(** The dataclass defaults of [OAEParams]. *)
Definition default_params : OAEParams :=
  {| memory_decay := 0.55; entropy_guard := 0.62; learn_rate := 0.08 |}.

Record DigitalOrgan : Type := {
  organ_id : string;
  state_uri : option string;
  state_hash : option string;
  schema : string;
  volatile : bool
}.

Record Soken : Type := {
  did : string;
  ddna_sha256 : string;
  non_fungible : bool;
  unique_identity : bool;
  transferable : bool;
  merge_policy : string;
  digital_organs : dict DigitalOrgan;
  meta : dict pyval
}.

(** The engine object: [self.soken], [self.params],
    [self._checkpoint_dir]. *)
Record OAE : Type := {
  soken : Soken;
  params : OAEParams;
  checkpoint_dir : pyval
}.

(** [OAE.__init__] *)
Definition init (s : Soken) (p : OAEParams) : OAE :=
  {| soken := s; params := p;
     checkpoint_dir := get_or (meta s) "checkpoint_dir" (PStr "./oae_ckpt") |}.

Definition with_meta (self : OAE) (m : dict pyval) : OAE :=
  {| soken := {| did := did (soken self);
                 ddna_sha256 := ddna_sha256 (soken self);
                 non_fungible := non_fungible (soken self);
                 unique_identity := unique_identity (soken self);
                 transferable := transferable (soken self);
                 merge_policy := merge_policy (soken self);
                 digital_organs := digital_organs (soken self);
                 meta := m |};
     params := params self; checkpoint_dir := checkpoint_dir self |}.

(** [target_organ and target_organ in self.soken.digital_organs] *)
Definition is_target (target_organ : pyval) (organs : dict DigitalOrgan)
  : bool :=
  truthy target_organ
  && match target_organ with
     | PStr k => mem organs k
     | _ => false
     end.

(** Line 53. *)
Definition effective_impact (inten align : float) (p : OAEParams) : float :=
  inten * align * (1.0 - entropy_guard p * 0.6).

(** [OAE.resonance]: the report and the engine after the call. *)
Definition resonance {num : Numerals} (self : OAE) (now : float)
    (context : dict pyval) : option (dict pyval * OAE) :=
  inten <- to_float (get_or context "intensity" (PFloat 0.5)) ;;
  align <- to_float (get_or context "alignment" (PFloat 0.5)) ;;
  let effective := effective_impact inten align (params self) in
  prev_lr <- to_float (get_or (meta (soken self)) "effective_learn_rate"
                              (PFloat (learn_rate (params self)))) ;;
  let new_lr := max 0.0 (min 1.0 (prev_lr + effective * 0.05)) in
  let m := set (meta (soken self)) "effective_learn_rate" (PFloat new_lr) in
  let target_organ := get_or context "organ_id" PNone in
  let m :=
    if is_target target_organ (digital_organs (soken self)) then
      set (set m "hot_organ" target_organ) "hot_organ_at" (PFloat now)
    else m in
  Some ([("effective_impact", PFloat effective);
         ("learn_rate_prev", PFloat prev_lr);
         ("learn_rate_new", PFloat new_lr);
         ("guard", PFloat (entropy_guard (params self)));
         ("target_organ", target_organ)],
        with_meta self m).

(** The summary [decay_tick] returns. *)
Record DecaySummary : Type := {
  affect_prev : float;
  affect_new : float;
  volatile_cooled : list string
}.

(** The loop of [decay_tick]: the ids of the volatile organs, in the
    order of the dict. *)
Definition cooled (organs : dict DigitalOrgan) : list string :=
  map fst (filter (fun kv : string * DigitalOrgan => volatile (snd kv)) organs).

(** [OAE.decay_tick]; its argument [now] is read nowhere after line 77. *)
Definition decay_tick {num : Numerals} (self : OAE) : option (DecaySummary * OAE) :=
  let decay := memory_decay (params self) in
  emo <- to_float (get_or (meta (soken self)) "affect_level" (PFloat 0.0)) ;;
  let new_emo := emo * (1.0 - 0.5 * decay) in
  let m := set (meta (soken self)) "affect_level" (PFloat new_emo) in
  Some ({| affect_prev := emo; affect_new := new_emo;
           volatile_cooled := cooled (digital_organs (soken self)) |},
        with_meta self m).

Definition json_of_option (o : option string) : json :=
  match o with
  | Some s => JString s
  | None => JNull
  end.

(** The [payload] dict of [checkpoint] (lines 95-115). *)
Definition payload (self : OAE) (now : float) (label : string) : json :=
  let s := soken self in
  JObject
    [("did", JString (did s));
     ("ddna_sha256", JString (ddna_sha256 s));
     ("policy",
      JObject
        [("non_fungible", JBool (non_fungible s));
         ("unique_identity", JBool (unique_identity s));
         ("transferable", JBool (transferable s));
         ("merge_policy", JString (merge_policy s))]);
     ("digital_organs",
      JObject
        (map (fun kv : string * DigitalOrgan =>
                (fst kv,
                 JObject
                   [("organ_id", JString (organ_id (snd kv)));
                    ("state_uri", json_of_option (state_uri (snd kv)));
                    ("state_hash", json_of_option (state_hash (snd kv)));
                    ("schema", JString (schema (snd kv)));
                    ("volatile", JBool (volatile (snd kv)))]))
             (digital_organs s)));
     ("meta",
      JObject (map (fun kv : string * pyval => (fst kv, json_of_pyval (snd kv)))
                   (meta s)));
     ("oae_params",
      JObject
        [("memory_decay", JNumber (memory_decay (params self)));
         ("entropy_guard", JNumber (entropy_guard (params self)));
         ("learn_rate", JNumber (learn_rate (params self)))]);
     ("ts", JNumber now);
     ("label", JString label)].

(** [json.dumps(payload, separators=(",", ":"), ensure_ascii=False)
    .encode("utf-8")] *)
Definition raw {codec : Codec} (self : OAE) (now : float) (label : string) : string :=
  json_dumps {| indent := None; separators := Some (",", ":");
                ensure_ascii := false |}
             (payload self now label).

(** [digest] and [path] of [checkpoint] (lines 117-118), for the
    directory [dir]. *)
Definition digest {codec : Codec} (self : OAE) (now : float) (label : string)
  : string :=
  sha256_hex (raw self now label).

Definition path {codec : Codec} (dir : string) (self : OAE) (now : float)
    (label : string) : string :=
  path_join dir (label ++ "_" ++ take 16 (digest self now label) ++ ".json").

(** [OAE.checkpoint]: the path returned and the state of the operating
    system after the write; [None] when [self._checkpoint_dir] is no
    [str] ([TypeError]) and when [os.makedirs] or the write raises. *)
Definition checkpoint {codec : Codec} {os : Os} (self : OAE) (now : float)
    (label : string) (w : world) : option (string * world) :=
  match checkpoint_dir self with
  | PStr dir =>
      w <- makedirs dir w ;;
      w <- write_file (path dir self now label) (raw self now label) w ;;
      Some (path dir self now label, w)
  | _ => None
  end.

(** [OAE.verify_integrity] *)
Definition verify_integrity {codec : Codec} (snapshot_bytes : string) : string :=
  sha256_hex snapshot_bytes.

End Core.

(** ** Vocabulary of the properties *)

(** The stimulus names no organ of [organs]: its [organ_id] is absent, or
    is no [str], or is a [str] that is not a key. *)
Definition unknown_organ {V : Type} (context : Py.dict Py.pyval)
    (organs : Py.dict V) : Prop :=
  forall k, Py.get_or context "organ_id" Py.PNone = Py.PStr k ->
            Py.get organs k = None.

(** The stimulus names the organ [organ] of [organs], under the key [k]. *)
Definition targets {V : Type} (context : Py.dict Py.pyval)
    (organs : Py.dict V) (k : string) (organ : V) : Prop :=
  Py.get_or context "organ_id" Py.PNone = Py.PStr k
  /\ k <> ""
  /\ Py.get organs k = Some organ.

(** The [effective_impact] a report of [src/core.py] carries. *)
Definition reported_impact (r : option (Py.dict Py.pyval * Core.OAE))
  : option Py.float :=
  match r with
  | Some (report, _) =>
      match Py.get report "effective_impact" with
      | Some (Py.PFloat x) => Some x
      | _ => None
      end
  | None => None
  end.

(** A finite sequence of [resonance] calls, each with the clock it reads
    and its stimulus.  A call that raises does so at line 60, before
    anything is written, and leaves the engine to the next call. *)
Fixpoint resonances {num : Py.Numerals} (self : Oae.OAE)
    (calls : list (Py.float * Py.dict Py.pyval)) : Oae.OAE :=
  match calls with
  | [] => self
  | (now, context) :: rest =>
      match Oae.resonance self now context with
      | Some (_, self') => resonances self' rest
      | None => resonances self rest
      end
  end.

(** What [decay_tick] appends to [recovered] for the organ [oid] of
    fatigue [f], and to [atrophied] for the organ [oid] of strength [s]. *)
Definition recovered_entry (p : Oae.OAEParams) (oid : string) (f : Py.float)
  : string :=
  oid ++ " (fatigue -" ++ Py.format_f 2 (f * Oae.recovery_rate p) ++ ")".

Definition atrophied_entry (p : Oae.OAEParams) (oid : string) (s : Py.float)
  : string :=
  oid ++ " (str -" ++ Py.format_f 4 (s * (Oae.memory_decay p * 0.01)) ++ ")".

(** The checkpoint name as the specification words it: the identity id,
    the label and the first [n] hex characters of the digest. *)
Definition spec_checkpoint_name (id label digest : string) (n : nat) : string :=
  id ++ "_" ++ label ++ "_" ++ Py.take n digest ++ ".json".

(** Neither [strength] nor [fatigue] is negative. *)
Definition nonneg (props : Py.dict Py.float) : Prop :=
  (forall v, Py.get props "strength" = Some v -> 0 <= v)
  /\ (forall v, Py.get props "fatigue" = Some v -> 0 <= v).

(** Neither [strength] nor [fatigue] is above 100.0. *)
Definition within_bounds (props : Py.dict Py.float) : Prop :=
  (forall v, Py.get props "strength" = Some v -> v <= 100.0)
  /\ (forall v, Py.get props "fatigue" = Some v -> v <= 100.0).

(** The [intensity] the stimulus carries, as [resonance] reads it. *)
Definition intensity_of {num : Py.Numerals} (context : Py.dict Py.pyval)
  : option Py.float :=
  Py.to_float (Py.get_or context "intensity" (Py.PFloat 0.5)).

(** ** The drivers' data

    The engines as [run_simulation] ([src/oae.py]) and the [__main__]
    block of [src/core.py] build them, for the examples below. *)

Module Sample.
Import Py.

(** The numeral parser of the examples: they pass numbers, never a
    numeral held in a [str], so it is never consulted. *)
Definition numerals : Numerals := fun _ => None.

Definition limb (oid sch : string) (vol : bool) : Oae.DigitalOrgan :=
  {| Oae.organ_id := oid; Oae.schema := sch; Oae.volatile := vol;
     Oae.properties := Oae.default_properties |}.

Definition limbs : dict Oae.DigitalOrgan :=
  [("arm_left", limb "arm_left" "motor_v1_precision" false);
   ("arm_right", limb "arm_right" "motor_v1_power" true);
   ("legs", limb "legs" "motor_v1_endurance" false)].

Definition my_soken : Oae.Soken :=
  {| Oae.did := "did:world:0x5f2c9a1b7d3e4f60";
     Oae.ddna_sha256 := "";
     Oae.digital_organs := limbs;
     Oae.meta := [] |}.

(** [OAE(my_soken, OAEParams(learn_rate=0.1, recovery_rate=0.3))] *)
Definition engine : Oae.OAE :=
  Oae.init my_soken
    {| Oae.memory_decay := 0.10; Oae.entropy_guard := 0.85;
       Oae.learn_rate := 0.1; Oae.recovery_rate := 0.3 |}.

(** An engine with one organ of a cognitive schema, and a stimulus for
    it. *)
Definition memory : Oae.DigitalOrgan :=
  {| Oae.organ_id := "memory"; Oae.schema := "cognitive_v1_episodic";
     Oae.volatile := false; Oae.properties := Oae.default_properties |}.

Definition thinker : Oae.OAE :=
  Oae.init {| Oae.did := "did:world:0x5f2c9a1b7d3e4f60";
              Oae.ddna_sha256 := "";
              Oae.digital_organs := [("memory", memory)];
              Oae.meta := [] |}
           Oae.default_params.

Definition recall : dict pyval := [("organ_id", PStr "memory")].

Definition lift : dict pyval :=
  [("organ_id", PStr "arm_right"); ("intensity", PFloat 0.9);
   ("action", PStr "lift")].

Definition organ (oid sch : string) (vol : bool) : Core.DigitalOrgan :=
  {| Core.organ_id := oid; Core.state_uri := None; Core.state_hash := None;
     Core.schema := sch; Core.volatile := vol |}.

Definition s : Core.Soken :=
  {| Core.did := "did:mitas:example";
     Core.ddna_sha256 := "abc123...";
     Core.non_fungible := true;
     Core.unique_identity := true;
     Core.transferable := true;
     Core.merge_policy := "oae-consensus";
     Core.digital_organs :=
       [("memory", organ "memory" "episodic_v1" false);
        ("emotion", organ "emotion" "affect_v1" true);
        ("arm_left", organ "arm_left" "motor_control_v1" false);
        ("arm_right", organ "arm_right" "motor_control_v1" true);
        ("legs", organ "legs" "locomotion_v1" false)];
     Core.meta :=
       [("affect_level", PFloat 0.7); ("checkpoint_dir", PStr "./ckpt")] |}.

(** [OAE(s, OAEParams(memory_decay=0.55, entropy_guard=0.62,
    learn_rate=0.08))] *)
Definition oae : Core.OAE := Core.init s Core.default_params.

(** One motor organ after a full stimulus, [recovery_rate = 0.3]. *)
Definition worn : Oae.DigitalOrgan :=
  {| Oae.organ_id := "arm_right"; Oae.schema := "motor_v1_power";
     Oae.volatile := true;
     Oae.properties := [("strength", 10.091); ("fatigue", 10.0)] |}.

Definition tired : Oae.OAE :=
  Oae.init {| Oae.did := "did:world:0x5f2c9a1b7d3e4f60";
              Oae.ddna_sha256 := "";
              Oae.digital_organs := [("arm_right", worn)];
              Oae.meta := [("affect_level", PFloat 0.7)] |}
           {| Oae.memory_decay := 0.10; Oae.entropy_guard := 0.3;
              Oae.learn_rate := 0.1; Oae.recovery_rate := 0.3 |}.

(** A stimulus of full intensity for the right arm. *)
Definition strain : dict pyval :=
  [("organ_id", PStr "arm_right"); ("intensity", PFloat 1.0)].

(** [{"intensity": 0.9, "alignment": 1.0, "organ_id": "legs"}] *)
Definition kick : dict pyval :=
  [("intensity", PFloat 0.9); ("alignment", PFloat 1.0);
   ("organ_id", PStr "legs")].

End Sample.

(** ** The driver of [src/oae.py] *)

Module Driver.
Import Py.

(** [generate_mock_world_id], with the reading of [time.time_ns()] as its
    argument: [str] of a non-negative [int] is its decimal digits. *)
Definition generate_mock_world_id {codec : Codec} (time_ns : Z) : string :=
  "0x" ++ take 16 (Oae.sha256_hex (digits time_ns)).

(** [user_did] of [run_simulation] (line 145). *)
Definition user_did (mock_nullifier : string) : string :=
  "did:world:" ++ mock_nullifier.

End Driver.

(** ** Repeated ticks, and what the further properties speak of *)

(** [c] occurs in [s]. *)
Fixpoint has_char (c : ascii) (s : string) : bool :=
  match s with
  | EmptyString => false
  | String a s' => Ascii.eqb a c || has_char c s'
  end.

(** [x] to the power [n]. *)
Fixpoint pow (x : Py.float) (n : nat) : Py.float :=
  match n with
  | O => 1
  | S n' => x * pow x n'
  end.

(** [n] calls of [decay_tick] of [src/oae.py] in a row, as the loop of
    [run_simulation] makes them. *)
Fixpoint decay_ticks (n : nat) (self : Oae.OAE) : option Oae.OAE :=
  match n with
  | O => Some self
  | S n' =>
      r <- Oae.decay_tick self ;;
      decay_ticks n' (snd r)
  end.

(** [n] calls of [decay_tick] of [src/core.py] in a row. *)
Fixpoint core_decay_ticks {num : Py.Numerals} (n : nat) (self : Core.OAE)
  : option Core.OAE :=
  match n with
  | O => Some self
  | S n' =>
      r <- Core.decay_tick self ;;
      core_decay_ticks n' (snd r)
  end.

(** The [affect_level] of an engine of [src/core.py], as [decay_tick]
    reads it. *)
Definition affect_of {num : Py.Numerals} (self : Core.OAE) : option Py.float :=
  Py.to_float (Py.get_or (Core.meta (Core.soken self)) "affect_level"
                         (Py.PFloat 0.0)).

(** Every property but [strength] and [fatigue] is bound alike. *)
Definition same_other_properties (props props' : Py.dict Py.float) : Prop :=
  forall name, name <> "strength" -> name <> "fatigue" ->
               Py.get props' name = Py.get props name.

(** The organ a stimulus finds, after the call. *)
Definition stimulated (p : Oae.OAEParams) (intensity : Py.float)
    (organ : Oae.DigitalOrgan) : Oae.DigitalOrgan :=
  if Py.contains "motor" (Oae.schema organ) then
    Oae.with_properties organ
      (Py.set (Py.set (Oae.properties organ) "strength"
              (Py.min 100.0
                 (Py.get_or (Oae.properties organ) "strength" 10.0
                  + Oae.effective_impact intensity p * Oae.learn_rate p)))
           "fatigue"
           (Py.min 100.0
              (Py.get_or (Oae.properties organ) "fatigue" 0.0 + intensity * 10.0)))
  else organ.

(** Data for the examples of the further properties. *)
Module Demo.
Import Py.

(** A codec for the examples: every document serializes to an empty
    object and every digest is the SHA-256 of the empty input. *)
Definition codec : Codec :=
  {| sha256 := fun _ =>
       "e3b0c44298fc1c149afbf4c8996fb92427ae41e4649b934ca495991b7852b855";
     json_dumps := fun _ _ => "{}" |}.

(** An operating system for the examples: files in memory, by path, and
    no call refused. *)
Definition os : Os :=
  {| world := dict string;
     makedirs := fun _ w => Some w;
     write_file := fun path data w => Some (set w path data) |}.

(** An identity whose one motor organ is kept under the empty id. *)
Definition nameless : Oae.OAE :=
  Oae.init {| Oae.did := "did:world:0x5f2c9a1b7d3e4f60";
              Oae.ddna_sha256 := "";
              Oae.digital_organs := [("", Sample.limb "" "motor_v1_power" false)];
              Oae.meta := [] |}
           Oae.default_params.

(** A stimulus of full intensity for the organ kept under the empty
    id. *)
Definition poke : dict pyval :=
  [("organ_id", PStr ""); ("intensity", PFloat 1.0)].

(** An identity whose one organ, of a cognitive schema, is kept under
    the empty id. *)
Definition absent_minded : Oae.OAE :=
  Oae.init {| Oae.did := "did:world:0x5f2c9a1b7d3e4f60";
              Oae.ddna_sha256 := "";
              Oae.digital_organs :=
                [("", {| Oae.organ_id := "";
                         Oae.schema := "cognitive_v1_episodic";
                         Oae.volatile := false;
                         Oae.properties := Oae.default_properties |})];
              Oae.meta := [] |}
           Oae.default_params.

(** A stimulus of negative intensity for the right arm. *)
Definition drain : dict pyval :=
  [("organ_id", PStr "arm_right"); ("intensity", PFloat (-0.5))].

(** The tired engine with [recovery_rate = 1.5]. *)
Definition eager : Oae.OAE :=
  {| Oae.soken := Oae.soken Sample.tired;
     Oae.params := {| Oae.memory_decay := 0.10; Oae.entropy_guard := 0.3;
                      Oae.learn_rate := 0.1; Oae.recovery_rate := 1.5 |};
     Oae.ckpt_dir := "./oae_checkpoints" |}.

(** The identity [run_simulation] builds, for one reading of the clock. *)
Definition simulated : Oae.OAE :=
  Oae.init
    {| Oae.did :=
         Driver.user_did
           (@Driver.generate_mock_world_id codec 1762300800000000000);
       Oae.ddna_sha256 := @Oae.sha256_hex codec "unique_biometric_seed";
       Oae.digital_organs := Sample.limbs;
       Oae.meta := [] |}
    {| Oae.memory_decay := 0.10; Oae.entropy_guard := 0.85;
       Oae.learn_rate := 0.1; Oae.recovery_rate := 0.3 |}.

End Demo.

(** ** The Python built-ins *)

Section BuiltinFacts.
Import Py.

Lemma ltb_lt (a b : float) : ltb a b = true <-> a < b.
Proof.
  unfold ltb. rewrite Qlt_alt.
  destruct (a ?= b); split; intro H; try reflexivity; discriminate H.
Qed.

Lemma ltb_ge (a b : float) : ltb a b = false <-> b <= a.
Proof.
  rewrite Qle_alt. unfold ltb. rewrite <- (Qcompare_antisym a b).
  destruct (a ?= b); simpl; split; intro H; try reflexivity;
    try discriminate H; try (intro E; discriminate E).
  exfalso. apply H. reflexivity.
Qed.

Lemma min_le_l (a b : float) : min a b <= a.
Proof.
  unfold min. destruct (ltb b a) eqn:E.
  - apply ltb_lt in E. apply Qlt_le_weak, E.
  - apply Qle_refl.
Qed.

Lemma max_ge_l (a b : float) : a <= max a b.
Proof.
  unfold max, gtb. destruct (ltb a b) eqn:E.
  - apply ltb_lt in E. apply Qlt_le_weak, E.
  - apply Qle_refl.
Qed.

Context {V : Type}.
Implicit Types (d : dict V) (k : string) (v : V).

Lemma get_set_same d k v : get (set d k v) k = Some v.
Proof.
  induction d as [|[k' v'] d IH]; simpl.
  - rewrite String.eqb_refl. reflexivity.
  - destruct (k' =? k)%string eqn:E; simpl; rewrite E; [reflexivity | exact IH].
Qed.

Lemma get_set_other d k k' v : k <> k' -> get (set d k v) k' = get d k'.
Proof.
  intro Hne. induction d as [|[k0 v0] d IH]; simpl.
  - apply String.eqb_neq in Hne. rewrite Hne. reflexivity.
  - destruct (k0 =? k)%string eqn:E; simpl.
    + apply String.eqb_eq in E. subst k0.
      apply String.eqb_neq in Hne. rewrite Hne. reflexivity.
    + destruct (k0 =? k')%string; [reflexivity | exact IH].
Qed.

Lemma set_get_id d k v : get d k = Some v -> set d k v = d.
Proof.
  induction d as [|[k0 v0] d IH]; simpl; intro H.
  - discriminate H.
  - destruct (k0 =? k)%string.
    + injection H as ->. reflexivity.
    + rewrite (IH H). reflexivity.
Qed.

Lemma get_or_set_other d k k' v dflt :
  k <> k' -> get_or (set d k v) k' dflt = get_or d k' dflt.
Proof. intro H. unfold get_or. rewrite (get_set_other _ _ _ _ H). reflexivity. Qed.

Lemma get_or_some d k v dflt : get d k = Some v -> get_or d k dflt = v.
Proof. intro H. unfold get_or. rewrite H. reflexivity. Qed.
End BuiltinFacts.


(** ** [resonance] on a stimulus that names no organ *)

Section UnknownOrgan.
Import Py.
Context {num : Numerals}.

Lemma find_target_unknown (context : dict pyval) (organs : dict Oae.DigitalOrgan) :
  unknown_organ context organs ->
  Oae.find_target (get_or context "organ_id" PNone) organs = None.
Proof.
  unfold unknown_organ, Oae.find_target. intro H.
  destruct (get_or context "organ_id" PNone) as [| b | x | k].
  - reflexivity.
  - destruct (truthy (PBool b)); reflexivity.
  - destruct (truthy (PFloat x)); reflexivity.
  - rewrite (H k eq_refl). destruct (truthy (PStr k)); reflexivity.
Qed.

Lemma is_target_unknown (context : dict pyval) (organs : dict Core.DigitalOrgan) :
  unknown_organ context organs ->
  Core.is_target (get_or context "organ_id" PNone) organs = false.
Proof.
  unfold unknown_organ, Core.is_target, mem. intro H.
  destruct (get_or context "organ_id" PNone) as [| b | x | k];
    try apply andb_false_r.
  rewrite (H k eq_refl). apply andb_false_r.
Qed.

Lemma oae_resonance_unknown (self : Oae.OAE) (now : float)
    (context : dict pyval) (intensity : float) :
  unknown_organ context (Oae.digital_organs (Oae.soken self)) ->
  intensity_of context = Some intensity ->
  Oae.resonance self now context = Some (Oae.ignored, self).
Proof.
  intros Hunk Hint. unfold Oae.resonance.
  unfold intensity_of in Hint. rewrite Hint. simpl.
  rewrite (find_target_unknown _ _ Hunk). reflexivity.
Qed.

(** C1, as the code has it.  In [src/oae.py], a stimulus that names no
    organ (and whose intensity [float] accepts) makes [resonance] return
    [{"status": "ignored", "impact": 0.0}] and leave the whole engine as
    it was: every organ, and the metadata too.  In [src/core.py] such a
    stimulus leaves every organ as it was as well, but [resonance] returns
    its effect report (no [status] key; [target_organ] is the id that was
    passed) and stores the new [effective_learn_rate] in the metadata. *)
Theorem resonance_unknown_organ :
  (forall (self : Oae.OAE) (now : float) (context : dict pyval)
          (intensity : float),
      unknown_organ context (Oae.digital_organs (Oae.soken self)) ->
      intensity_of context = Some intensity ->
      Oae.resonance self now context = Some (Oae.ignored, self))
  /\
  (forall (self : Core.OAE) (now : float) (context : dict pyval)
          (inten align prev_lr : float),
      unknown_organ context (Core.digital_organs (Core.soken self)) ->
      intensity_of context = Some inten ->
      to_float (get_or context "alignment" (PFloat 0.5)) = Some align ->
      to_float (get_or (Core.meta (Core.soken self)) "effective_learn_rate"
                       (PFloat (Core.learn_rate (Core.params self))))
        = Some prev_lr ->
      exists report self',
        Core.resonance self now context = Some (report, self')
        /\ Core.digital_organs (Core.soken self')
           = Core.digital_organs (Core.soken self)
        /\ get report "status" = None
        /\ get report "target_organ" = Some (get_or context "organ_id" PNone)
        /\ get report "effective_impact"
           = Some (PFloat (Core.effective_impact inten align (Core.params self)))
        /\ Core.meta (Core.soken self')
           = set (Core.meta (Core.soken self)) "effective_learn_rate"
               (PFloat (max 0.0 (min 1.0
                  (prev_lr
                   + Core.effective_impact inten align (Core.params self) * 0.05))))).
Proof.
  split.
  - exact oae_resonance_unknown.
  - intros self now context inten align prev_lr Hunk Hint Halign Hlr.
    unfold Core.resonance. unfold intensity_of in Hint.
    rewrite Hint. simpl. rewrite Halign. simpl. rewrite Hlr. simpl.
    rewrite (is_target_unknown _ _ Hunk).
    eexists. eexists. split; [reflexivity |].
    repeat split.
Qed.
End UnknownOrgan.

Lemma resonance_unknown_organ_witness :
  unknown_organ [("organ_id", Py.PStr "tail")]
                (Oae.digital_organs (Oae.soken Sample.engine))
  /\ @Oae.resonance Sample.numerals Sample.engine 0
       [("organ_id", Py.PStr "tail")]
     = Some (Oae.ignored, Sample.engine).
Proof.
  assert (H : unknown_organ [("organ_id", Py.PStr "tail")]
                (Oae.digital_organs (Oae.soken Sample.engine))).
  { intros k Hk. injection Hk as <-. reflexivity. }
  split; [exact H |].
  apply (proj1 (@resonance_unknown_organ Sample.numerals)) with (intensity := 0.5).
  - exact H.
  - reflexivity.
Defined.

(** C1 fails on [src/core.py]: for the stimulus [{"organ_id": "ghost"}],
    which names no organ of the driver's identity, its [resonance] does
    not return the ignored result, whatever the numeral parser. *)
Lemma core_resonance_unknown_not_ignored :
  ~ exists num : Py.Numerals,
      option_map fst
        (@Core.resonance num Sample.oae 0 [("organ_id", Py.PStr "ghost")])
      = Some Oae.ignored.
Proof.
  intros [num H]. vm_compute in H. discriminate H.
Qed.

(** ** [resonance] on a stimulus that names an organ ([src/oae.py]) *)

Section Stimulus.
Import Py.
Context {num : Numerals}.

Lemma find_target_known (context : dict pyval)
    (organs : dict Oae.DigitalOrgan) (k : string) (organ : Oae.DigitalOrgan) :
  targets context organs k organ ->
  Oae.find_target (get_or context "organ_id" PNone) organs = Some (k, organ).
Proof.
  intros (Hid & Hk & Hget). rewrite Hid. unfold Oae.find_target. simpl.
  apply String.eqb_neq in Hk. rewrite Hk. simpl. rewrite Hget. reflexivity.
Qed.

(** The motor branch never raises; it writes the two clamped values and
    nothing else. *)
Lemma motor_update_props (p : Oae.OAEParams) (target_id : pyval)
    (intensity : float) (props : dict float) :
  let gain := Oae.effective_impact intensity p * Oae.learn_rate p in
  let new_strength := min 100.0 (get_or props "strength" 10.0 + gain) in
  let new_fatigue := min 100.0 (get_or props "fatigue" 0.0 + intensity * 10.0) in
  Oae.motor_update p target_id intensity props
  = Some (set (set props "strength" new_strength) "fatigue" new_fatigue,
          [("organ", target_id);
           ("strength_gain", PStr ("+" ++ format_f 4 gain));
           ("new_strength", PFloat new_strength);
           ("fatigue_spike", PStr ("+" ++ format_f 2 (intensity * 10.0)))]).
Proof.
  intros gain new_strength new_fatigue. unfold Oae.motor_update.
  fold gain. fold new_strength.
  rewrite get_or_set_other by discriminate. fold new_fatigue.
  rewrite get_set_other by discriminate. rewrite get_set_same.
  reflexivity.
Qed.

Lemma resonance_motor (self : Oae.OAE) (now : float) (context : dict pyval)
    (k : string) (organ : Oae.DigitalOrgan) (intensity : float) :
  targets context (Oae.digital_organs (Oae.soken self)) k organ ->
  contains "motor" (Oae.schema organ) = true ->
  intensity_of context = Some intensity ->
  let props := Oae.properties organ in
  let gain := Oae.effective_impact intensity (Oae.params self)
              * Oae.learn_rate (Oae.params self) in
  let new_strength := min 100.0 (get_or props "strength" 10.0 + gain) in
  let new_fatigue := min 100.0 (get_or props "fatigue" 0.0 + intensity * 10.0) in
  let organ' :=
    Oae.with_properties organ
      (set (set props "strength" new_strength) "fatigue" new_fatigue) in
  exists self',
    Oae.resonance self now context
    = Some ([("organ", PStr k);
             ("strength_gain", PStr ("+" ++ format_f 4 gain));
             ("new_strength", PFloat new_strength);
             ("fatigue_spike", PStr ("+" ++ format_f 2 (intensity * 10.0)))],
            self')
    /\ Oae.digital_organs (Oae.soken self')
       = set (Oae.digital_organs (Oae.soken self)) k organ'.
Proof.
  intros Ht Hmotor Hint props gain new_strength new_fatigue organ'.
  unfold Oae.resonance. unfold intensity_of in Hint. rewrite Hint. simpl.
  rewrite (find_target_known _ _ _ _ Ht). rewrite Hmotor.
  rewrite motor_update_props. simpl.
  destruct Ht as (Hid & _ & _). rewrite Hid.
  eexists. split; reflexivity.
Qed.

Lemma resonance_not_motor (self : Oae.OAE) (now : float)
    (context : dict pyval) (k : string) (organ : Oae.DigitalOrgan)
    (intensity : float) :
  targets context (Oae.digital_organs (Oae.soken self)) k organ ->
  contains "motor" (Oae.schema organ) = false ->
  intensity_of context = Some intensity ->
  Oae.resonance self now context
  = Some (Oae.ignored,
          Oae.with_meta self
            (set (set (Oae.meta (Oae.soken self)) "last_active_organ" (PStr k))
                 "last_active_ts" (PFloat now))).
Proof.
  intros Ht Hmotor Hint.
  unfold Oae.resonance. unfold intensity_of in Hint. rewrite Hint. simpl.
  rewrite (find_target_known _ _ _ _ Ht). rewrite Hmotor.
  destruct Ht as (Hid & _ & Hget). rewrite Hid.
  assert (Hsame : (if contains "cognitive" (Oae.schema organ)
                   then Some (Oae.ignored, organ)
                   else Some (Oae.ignored, organ))
                  = Some (Oae.ignored, organ))
    by (destruct (contains "cognitive" (Oae.schema organ)); reflexivity).
  rewrite Hsame. simpl. rewrite (set_get_id _ _ _ Hget).
  destruct self as [[d h o m] p c]. reflexivity.
Qed.

(** C3, as the code has it.  When the stimulus names an organ that is
    stored under a non-empty id and whose schema contains "motor",
    [resonance] returns and the organ's [strength] becomes
    [min(100.0, old_strength + intensity * (1 - entropy_guard * 0.3)
    * learn_rate)] and its [fatigue]
    [min(100.0, old_fatigue + intensity * 10.0)], where a missing
    [strength] counts as 10.0 and a missing [fatigue] as 0.0.  An organ
    stored under the empty id cannot be named: line 64 takes the empty
    string for no id at all. *)
Theorem resonance_motor_sets_strength_and_fatigue
    (self : Oae.OAE) (now : float) (context : dict pyval)
    (k : string) (organ : Oae.DigitalOrgan) (intensity : float) :
  targets context (Oae.digital_organs (Oae.soken self)) k organ ->
  contains "motor" (Oae.schema organ) = true ->
  intensity_of context = Some intensity ->
  exists report self' organ',
    Oae.resonance self now context = Some (report, self')
    /\ get (Oae.digital_organs (Oae.soken self')) k = Some organ'
    /\ get (Oae.properties organ') "strength"
       = Some (min 100.0
                 (get_or (Oae.properties organ) "strength" 10.0
                  + intensity
                    * (1.0 - (Oae.entropy_guard (Oae.params self) * 0.3))
                    * Oae.learn_rate (Oae.params self)))
    /\ get (Oae.properties organ') "fatigue"
       = Some (min 100.0
                 (get_or (Oae.properties organ) "fatigue" 0.0
                  + intensity * 10.0)).
Proof.
  intros Ht Hmotor Hint.
  destruct (resonance_motor self now context k organ intensity Ht Hmotor Hint)
    as (self' & Hres & Horgans).
  eexists. exists self'. eexists. split; [exact Hres |].
  rewrite Horgans, get_set_same. split; [reflexivity |]. simpl. split.
  - rewrite get_set_other by discriminate. apply get_set_same.
  - apply get_set_same.
Qed.
End Stimulus.

Lemma resonance_motor_sets_strength_and_fatigue_witness :
  targets Sample.lift (Oae.digital_organs (Oae.soken Sample.engine))
          "arm_right" (Sample.limb "arm_right" "motor_v1_power" true)
  /\ exists report self' organ',
       @Oae.resonance Sample.numerals Sample.engine 0 Sample.lift
       = Some (report, self')
       /\ Py.get (Oae.digital_organs (Oae.soken self')) "arm_right" = Some organ'
       /\ Py.get (Oae.properties organ') "strength"
          = Some (Py.min 100.0 (10.0 + 0.9 * (1.0 - (0.85 * 0.3)) * 0.1))
       /\ Py.get (Oae.properties organ') "fatigue"
          = Some (Py.min 100.0 (0.0 + 0.9 * 10.0)).
Proof.
  assert (Ht : targets Sample.lift (Oae.digital_organs (Oae.soken Sample.engine))
                 "arm_right" (Sample.limb "arm_right" "motor_v1_power" true)).
  { repeat split. discriminate. }
  split; [exact Ht |].
  apply (@resonance_motor_sets_strength_and_fatigue Sample.numerals
           Sample.engine 0 Sample.lift "arm_right" _ 0.9 Ht);
    reflexivity.
Defined.

(** C3 fails for a motor organ stored under the empty id: the stimulus
    [{"organ_id": "", "intensity": 1.0}] is the only one that could name
    it, and after it the organ's fatigue is not
    [min(100.0, 0.0 + 1.0 * 10.0)]; the call is ignored and the organ is
    as it was. *)
Lemma motor_organ_under_empty_id_untouched :
  Py.get (Oae.digital_organs (Oae.soken Demo.nameless)) ""
  = Some (Sample.limb "" "motor_v1_power" false)
  /\ Py.contains "motor" (Oae.schema (Sample.limb "" "motor_v1_power" false))
     = true
  /\ ~ exists (num : Py.Numerals) report self' organ' f,
        @Oae.resonance num Demo.nameless 0 Demo.poke = Some (report, self')
        /\ Py.get (Oae.digital_organs (Oae.soken self')) "" = Some organ'
        /\ Py.get (Oae.properties organ') "fatigue" = Some f
        /\ f == Py.min 100.0 (0.0 + 1.0 * 10.0).
Proof.
  split; [reflexivity |]. split; [reflexivity |].
  intros (num & report & self' & organ' & f & Hres & Hget & Hf & Heq).
  vm_compute in Hres. injection Hres as _ <-.
  vm_compute in Hget. injection Hget as <-.
  vm_compute in Hf. injection Hf as <-.
  vm_compute in Heq. discriminate Heq.
Qed.

(** ** The effective impact *)

Section EffectiveImpact.
Import Py.
Context {num : Numerals}.

Lemma core_resonance_returns (self : Core.OAE) (now : float)
    (context : dict pyval) (inten align prev_lr : float) :
  intensity_of context = Some inten ->
  to_float (get_or context "alignment" (PFloat 0.5)) = Some align ->
  to_float (get_or (Core.meta (Core.soken self)) "effective_learn_rate"
                   (PFloat (Core.learn_rate (Core.params self))))
    = Some prev_lr ->
  exists self',
    Core.resonance self now context
    = Some ([("effective_impact",
              PFloat (Core.effective_impact inten align (Core.params self)));
             ("learn_rate_prev", PFloat prev_lr);
             ("learn_rate_new",
              PFloat (max 0.0 (min 1.0
                (prev_lr
                 + Core.effective_impact inten align (Core.params self) * 0.05))));
             ("guard", PFloat (Core.entropy_guard (Core.params self)));
             ("target_organ", get_or context "organ_id" PNone)],
            self').
Proof.
  intros Hint Halign Hlr. unfold Core.resonance. unfold intensity_of in Hint.
  rewrite Hint. simpl. rewrite Halign. simpl. rewrite Hlr. simpl.
  eexists. reflexivity.
Qed.

(** C2, as the code has it.  [src/oae.py] computes
    [intensity * (1 - entropy_guard * 0.3)], and only for a stimulus that
    names an organ; the value shows in a motor organ's reported gain and
    new strength.  [src/core.py] computes and reports
    [intensity * alignment * (1 - entropy_guard * 0.6)], where
    [alignment] is a second field of the stimulus (0.5 when absent). *)
Theorem effective_impact_formulas :
  (forall (self : Oae.OAE) (now : float) (context : dict pyval)
          (k : string) (organ : Oae.DigitalOrgan) (intensity : float),
      targets context (Oae.digital_organs (Oae.soken self)) k organ ->
      contains "motor" (Oae.schema organ) = true ->
      intensity_of context = Some intensity ->
      let impact :=
        intensity * (1.0 - (Oae.entropy_guard (Oae.params self) * 0.3)) in
      let gain := impact * Oae.learn_rate (Oae.params self) in
      exists report self',
        Oae.resonance self now context = Some (report, self')
        /\ get report "strength_gain" = Some (PStr ("+" ++ format_f 4 gain))
        /\ get report "new_strength"
           = Some (PFloat (min 100.0
                     (get_or (Oae.properties organ) "strength" 10.0 + gain))))
  /\
  (forall (self : Core.OAE) (now : float) (context : dict pyval)
          (inten align prev_lr : float),
      intensity_of context = Some inten ->
      to_float (get_or context "alignment" (PFloat 0.5)) = Some align ->
      to_float (get_or (Core.meta (Core.soken self)) "effective_learn_rate"
                       (PFloat (Core.learn_rate (Core.params self))))
        = Some prev_lr ->
      reported_impact (Core.resonance self now context)
      = Some (inten * align
              * (1.0 - Core.entropy_guard (Core.params self) * 0.6))).
Proof.
  split.
  - intros self now context k organ intensity Ht Hmotor Hint impact gain.
    destruct (resonance_motor self now context k organ intensity Ht Hmotor Hint)
      as (self' & Hres & _).
    eexists. exists self'. split; [exact Hres |].
    split; reflexivity.
  - intros self now context inten align prev_lr Hint Halign Hlr.
    destruct (core_resonance_returns self now context inten align prev_lr
                Hint Halign Hlr) as (self' & Hres).
    rewrite Hres. reflexivity.
Qed.

(** C8, as the code has it.  For [entropy_guard] and [intensity] in
    [0, 1] the effective impact of [src/oae.py] is non-negative and does
    not grow with [entropy_guard]; that of [src/core.py] is so when the
    stimulus's [alignment], which multiplies it, is non-negative. *)
Theorem effective_impact_nonneg_antitone :
  (forall (intensity : float) (p : Oae.OAEParams),
      0 <= intensity <= 1 -> 0 <= Oae.entropy_guard p <= 1 ->
      0 <= Oae.effective_impact intensity p)
  /\
  (forall (intensity : float) (p q : Oae.OAEParams),
      0 <= intensity <= 1 ->
      0 <= Oae.entropy_guard p -> Oae.entropy_guard p <= Oae.entropy_guard q ->
      Oae.entropy_guard q <= 1 ->
      Oae.effective_impact intensity q <= Oae.effective_impact intensity p)
  /\
  (forall (inten align : float) (p : Core.OAEParams),
      0 <= inten <= 1 -> 0 <= align -> 0 <= Core.entropy_guard p <= 1 ->
      0 <= Core.effective_impact inten align p)
  /\
  (forall (inten align : float) (p q : Core.OAEParams),
      0 <= inten <= 1 -> 0 <= align ->
      0 <= Core.entropy_guard p -> Core.entropy_guard p <= Core.entropy_guard q ->
      Core.entropy_guard q <= 1 ->
      Core.effective_impact inten align q <= Core.effective_impact inten align p).
Proof.
  unfold Oae.effective_impact, Core.effective_impact.
  repeat split.
  - intros intensity p [Hi0 Hi1] [Hg0 Hg1]. nra.
  - intros intensity p q [Hi0 Hi1] Hp Hpq Hq. nra.
  - intros inten align p [Hi0 Hi1] Ha [Hg0 Hg1].
    assert (0 <= inten * align) by nra. nra.
  - intros inten align p q [Hi0 Hi1] Ha Hp Hpq Hq.
    assert (0 <= inten * align) by nra. nra.
Qed.
End EffectiveImpact.

Lemma effective_impact_formulas_witness :
  intensity_of (num := Sample.numerals) Sample.kick = Some 0.9
  /\ reported_impact (@Core.resonance Sample.numerals Sample.oae 0 Sample.kick)
     = Some (0.9 * 1.0 * (1.0 - 0.62 * 0.6)).
Proof.
  split; [reflexivity |].
  apply (proj2 (@effective_impact_formulas Sample.numerals)
           Sample.oae 0 Sample.kick 0.9 1.0 0.08);
    reflexivity.
Defined.

(** C2 fails on [src/core.py]: with [entropy_guard = 0.62], no
    coefficient [c] gives the impact both of the driver's stimulus
    (intensity 0.9, alignment 1.0) and of the same stimulus without its
    alignment: the two impacts differ, the claimed formula's value does
    not. *)
Lemma core_impact_depends_on_alignment :
  ~ exists (num : Py.Numerals) (c x y : Py.float),
      reported_impact (@Core.resonance num Sample.oae 0 Sample.kick) = Some x
      /\ reported_impact
           (@Core.resonance num Sample.oae 0
              [("intensity", Py.PFloat 0.9); ("organ_id", Py.PStr "legs")])
         = Some y
      /\ x == 0.9 * (1 - 0.62 * c)
      /\ y == 0.9 * (1 - 0.62 * c).
Proof.
  intros (num & c & x & y & Hx & Hy & Ex & Ey).
  vm_compute in Hx, Hy.
  injection Hx as <-. injection Hy as <-.
  rewrite <- Ey in Ex. vm_compute in Ex. discriminate Ex.
Qed.

Lemma effective_impact_nonneg_antitone_witness :
  0 <= 0.9 <= 1
  /\ 0 <= Oae.entropy_guard (Oae.params Sample.engine) <= 1
  /\ 0 <= Oae.effective_impact 0.9 (Oae.params Sample.engine).
Proof.
  assert (Hi : 0 <= 0.9 <= 1) by (split; discriminate).
  assert (Hg : 0 <= Oae.entropy_guard (Oae.params Sample.engine) <= 1)
    by (split; discriminate).
  split; [exact Hi |]. split; [exact Hg |].
  apply (proj1 effective_impact_nonneg_antitone 0.9 _ Hi Hg).
Defined.

(** C8 fails on [src/core.py]: a stimulus of intensity 1.0 and alignment
    -1.0 has a negative effective impact, at [entropy_guard = 0.62]. *)
Lemma core_impact_negative :
  ~ exists (num : Py.Numerals) (x : Py.float),
      reported_impact
        (@Core.resonance num Sample.oae 0
           [("intensity", Py.PFloat 1.0); ("alignment", Py.PFloat (-1.0))])
      = Some x
      /\ 0 <= x.
Proof.
  intros (num & x & Hx & Hpos).
  vm_compute in Hx. injection Hx as <-.
  apply Hpos. reflexivity.
Qed.

(** ** A named organ that is not a motor organ *)

Section Unmatched.
Import Py.
Context {num : Numerals}.

(** C10, as the code has it.  When the stimulus names an organ that is
    stored under a non-empty id and whose schema does not contain "motor"
    (one the cognitive branch takes, or one no branch takes),
    [resonance] of [src/oae.py] returns the very report it returns for a
    stimulus that names no organ, [{"status": "ignored", "impact": 0.0}],
    leaves the organs as they were, and records the organ id and the time
    in [meta] under [last_active_organ] and [last_active_ts].  An organ
    stored under the empty id cannot be named, and [meta] is not written
    for it. *)
Theorem resonance_unmatched_schema_ignored
    (self : Oae.OAE) (now : float) (context : dict pyval)
    (k : string) (organ : Oae.DigitalOrgan) (intensity : float) :
  targets context (Oae.digital_organs (Oae.soken self)) k organ ->
  contains "motor" (Oae.schema organ) = false ->
  intensity_of context = Some intensity ->
  exists self',
    Oae.resonance self now context = Some (Oae.ignored, self')
    /\ Oae.ignored = [("status", PStr "ignored"); ("impact", PFloat 0.0)]
    /\ Oae.digital_organs (Oae.soken self') = Oae.digital_organs (Oae.soken self)
    /\ get (Oae.meta (Oae.soken self')) "last_active_organ" = Some (PStr k)
    /\ get (Oae.meta (Oae.soken self')) "last_active_ts" = Some (PFloat now)
    /\ (forall context0 intensity0,
           unknown_organ context0 (Oae.digital_organs (Oae.soken self)) ->
           intensity_of context0 = Some intensity0 ->
           option_map fst (Oae.resonance self now context0)
           = option_map fst (Oae.resonance self now context)).
Proof.
  intros Ht Hmotor Hint.
  pose proof (resonance_not_motor self now context k organ intensity
                Ht Hmotor Hint) as Hres.
  eexists. split; [exact Hres |].
  split; [reflexivity |]. split; [reflexivity |]. simpl.
  split; [| split].
  - rewrite get_set_other by discriminate. apply get_set_same.
  - apply get_set_same.
  - intros context0 intensity0 Hunk Hint0.
    rewrite Hres, (oae_resonance_unknown self now context0 intensity0 Hunk Hint0).
    reflexivity.
Qed.
End Unmatched.

Lemma resonance_unmatched_schema_ignored_witness :
  targets Sample.recall (Oae.digital_organs (Oae.soken Sample.thinker))
          "memory" Sample.memory
  /\ Py.contains "motor" (Oae.schema Sample.memory) = false
  /\ exists self',
       @Oae.resonance Sample.numerals Sample.thinker 7 Sample.recall
       = Some (Oae.ignored, self')
       /\ Py.get (Oae.meta (Oae.soken self')) "last_active_organ"
          = Some (Py.PStr "memory")
       /\ Py.get (Oae.meta (Oae.soken self')) "last_active_ts"
          = Some (Py.PFloat 7).
Proof.
  assert (Ht : targets Sample.recall
                 (Oae.digital_organs (Oae.soken Sample.thinker))
                 "memory" Sample.memory).
  { repeat split. discriminate. }
  split; [exact Ht |]. split; [reflexivity |].
  destruct (@resonance_unmatched_schema_ignored Sample.numerals
              Sample.thinker 7 Sample.recall "memory" Sample.memory 0.5
              Ht eq_refl eq_refl)
    as (self' & Hres & _ & _ & Horgan & Hts & _).
  exists self'. repeat split; assumption.
Defined.

(** C10 fails for an organ stored under the empty id: the id is present
    and the schema of its organ contains no "motor", the report is the
    ignored one, but [meta] records nothing. *)
Lemma organ_under_empty_id_leaves_no_trace :
  Py.mem (Oae.digital_organs (Oae.soken Demo.absent_minded)) "" = true
  /\ ~ exists (num : Py.Numerals) report self',
        @Oae.resonance num Demo.absent_minded 0 Demo.poke
        = Some (report, self')
        /\ Py.get (Oae.meta (Oae.soken self')) "last_active_organ"
           = Some (Py.PStr "").
Proof.
  split; [reflexivity |].
  intros (num & report & self' & Hres & Hmeta).
  vm_compute in Hres. injection Hres as _ <-.
  vm_compute in Hmeta. discriminate Hmeta.
Qed.

(** ** Clamping under repeated stimuli *)

Section Clamping.
Import Py.
Context {num : Numerals}.

Lemma find_target_some (v : pyval) (organs : dict Oae.DigitalOrgan)
    (k : string) (organ : Oae.DigitalOrgan) :
  Oae.find_target v organs = Some (k, organ) -> get organs k = Some organ.
Proof.
  unfold Oae.find_target. destruct (truthy v); [| discriminate].
  destruct v as [| b | x | k0]; try discriminate.
  destruct (get organs k0) as [o |] eqn:E; [| discriminate].
  intro H. injection H as <- <-. exact E.
Qed.

Lemma motor_update_within_bounds (p : Oae.OAEParams) (target_id : pyval)
    (intensity : float) (props props' : dict float) (report : dict pyval) :
  Oae.motor_update p target_id intensity props = Some (props', report) ->
  within_bounds props'.
Proof.
  rewrite motor_update_props. intro H. injection H as <- _. split; intros v Hv.
  - rewrite get_set_other in Hv by discriminate. rewrite get_set_same in Hv.
    injection Hv as <-. apply min_le_l.
  - rewrite get_set_same in Hv. injection Hv as <-. apply min_le_l.
Qed.

(** One call keeps every organ under its key, with its schema, and
    within the bounds it was in. *)
Lemma resonance_keeps_bounds (self self' : Oae.OAE) (now : float)
    (context report : dict pyval) (k : string) (organ : Oae.DigitalOrgan) :
  Oae.resonance self now context = Some (report, self') ->
  get (Oae.digital_organs (Oae.soken self)) k = Some organ ->
  within_bounds (Oae.properties organ) ->
  exists organ',
    get (Oae.digital_organs (Oae.soken self')) k = Some organ'
    /\ Oae.schema organ' = Oae.schema organ
    /\ within_bounds (Oae.properties organ').
Proof.
  intros Hres Hget Hb. unfold Oae.resonance in Hres.
  destruct (to_float (get_or context "intensity" (PFloat 0.5)))
    as [intensity |]; [simpl in Hres | discriminate].
  destruct (Oae.find_target (get_or context "organ_id" PNone)
              (Oae.digital_organs (Oae.soken self)))
    as [[k0 o0] |] eqn:Ef.
  - apply find_target_some in Ef.
    destruct (contains "motor" (Oae.schema o0)) eqn:Em.
    + destruct (Oae.motor_update (Oae.params self)
                  (get_or context "organ_id" PNone) intensity
                  (Oae.properties o0)) as [[props' r] |] eqn:Eu;
        [simpl in Hres | discriminate].
      injection Hres as _ <-. simpl.
      destruct (String.eqb k0 k) eqn:Ek.
      * apply String.eqb_eq in Ek. subst k0. rewrite get_set_same.
        rewrite Hget in Ef. injection Ef as <-.
        eexists. split; [reflexivity |]. split; [reflexivity |].
        exact (motor_update_within_bounds _ _ _ _ _ _ Eu).
      * apply String.eqb_neq in Ek. rewrite (get_set_other _ _ _ _ Ek).
        exists organ. auto.
    + assert (Hsame : (if contains "cognitive" (Oae.schema o0)
                       then Some (Oae.ignored, o0)
                       else Some (Oae.ignored, o0))
                      = Some (Oae.ignored, o0))
        by (destruct (contains "cognitive" (Oae.schema o0)); reflexivity).
      rewrite Hsame in Hres. simpl in Hres. injection Hres as _ <-. simpl.
      rewrite (set_get_id _ _ _ Ef). exists organ. auto.
  - injection Hres as _ <-. exists organ. auto.
Qed.

(** C7.  A motor organ whose [strength] and [fatigue] are at most 100.0
    is, after any finite sequence of [resonance] calls, whatever their
    stimuli (repeated ones of intensity 1.0 among them), still under its
    key and a motor organ, and its [strength] and [fatigue] are at most
    100.0. *)
Theorem resonances_keep_bounds
    (calls : list (float * dict pyval)) (self : Oae.OAE)
    (k : string) (organ : Oae.DigitalOrgan) :
  get (Oae.digital_organs (Oae.soken self)) k = Some organ ->
  contains "motor" (Oae.schema organ) = true ->
  within_bounds (Oae.properties organ) ->
  exists organ',
    get (Oae.digital_organs (Oae.soken (resonances self calls))) k = Some organ'
    /\ contains "motor" (Oae.schema organ') = true
    /\ within_bounds (Oae.properties organ').
Proof.
  revert self organ.
  induction calls as [| [now context] rest IH]; intros self organ Hget Hm Hb.
  - exists organ. auto.
  - simpl. destruct (Oae.resonance self now context) as [[report self'] |] eqn:E.
    + destruct (resonance_keeps_bounds _ _ _ _ _ _ _ E Hget Hb)
        as (organ1 & Hget1 & Hs1 & Hb1).
      apply (IH self' organ1 Hget1); [rewrite Hs1; exact Hm | exact Hb1].
    + apply (IH self organ Hget Hm Hb).
Qed.
End Clamping.

Lemma resonances_keep_bounds_witness :
  Py.get (Oae.digital_organs (Oae.soken Sample.engine)) "arm_right"
  = Some (Sample.limb "arm_right" "motor_v1_power" true)
  /\ within_bounds Oae.default_properties
  /\ exists organ',
       Py.get (Oae.digital_organs
                 (Oae.soken (@resonances Sample.numerals Sample.engine
                               (repeat (0, Sample.strain) 12))))
              "arm_right" = Some organ'
       /\ Py.contains "motor" (Oae.schema organ') = true
       /\ within_bounds (Oae.properties organ').
Proof.
  assert (Hb : within_bounds Oae.default_properties).
  { split; intros v Hv; injection Hv as <-; discriminate. }
  split; [reflexivity |]. split; [exact Hb |].
  apply (@resonances_keep_bounds Sample.numerals
           (repeat (0, Sample.strain) 12) Sample.engine "arm_right"
           (Sample.limb "arm_right" "motor_v1_power" true));
    [reflexivity | reflexivity | exact Hb].
Defined.

(** ** [decay_tick] of [src/oae.py] *)

Section Decay.
Import Py.

Lemma recover_cases (p : Oae.OAEParams) (oid : string) (props : dict float) :
  (~ 0 < get_or props "fatigue" 0
   /\ Oae.recover p oid props = Some (props, []))
  \/ (exists f,
        get props "fatigue" = Some f /\ 0 < f
        /\ Oae.recover p oid props
           = Some (set props "fatigue" (max 0.0 (f - f * Oae.recovery_rate p)),
                   [recovered_entry p oid f])).
Proof.
  unfold Oae.recover, gtb.
  destruct (ltb 0 (get_or props "fatigue" 0)) eqn:E.
  - right. apply ltb_lt in E. unfold get_or in E.
    destruct (get props "fatigue") as [f |] eqn:Ef.
    + exists f. repeat split. exact E.
    + exfalso. revert E. apply Qlt_irrefl.
  - left. split; [| reflexivity].
    apply ltb_ge in E. apply Qle_not_lt, E.
Qed.

Lemma atrophy_cases (p : Oae.OAEParams) (oid : string) (props : dict float) :
  (~ (10.0 < get_or props "strength" 0 /\ get_or props "fatigue" 0 < 1.0)
   /\ Oae.atrophy p oid props = Some (props, []))
  \/ (exists s,
        get props "strength" = Some s /\ 10.0 < s
        /\ get_or props "fatigue" 0 < 1.0
        /\ Oae.atrophy p oid props
           = Some (set props "strength" (s - s * (Oae.memory_decay p * 0.01)),
                   [atrophied_entry p oid s])).
Proof.
  unfold Oae.atrophy, gtb.
  destruct (ltb 10.0 (get_or props "strength" 0)) eqn:Es;
    [destruct (ltb (get_or props "fatigue" 0) 1.0) eqn:Ef |]; simpl.
  - right. apply ltb_lt in Es, Ef. unfold get_or in Es.
    destruct (get props "strength") as [s |] eqn:E.
    + exists s. repeat split; assumption.
    + exfalso. revert Es. discriminate.
  - left. split; [| reflexivity]. intros [_ H].
    apply ltb_ge in Ef. revert H. apply Qle_not_lt, Ef.
  - left. split; [| reflexivity]. intros [H _].
    apply ltb_ge in Es. revert H. apply Qle_not_lt, Es.
Qed.

(** The loop body never raises. *)
Lemma decay_organ_returns (p : Oae.OAEParams) (oid : string)
    (organ : Oae.DigitalOrgan) :
  exists props1 rec props2 atr,
    Oae.recover p oid (Oae.properties organ) = Some (props1, rec)
    /\ Oae.atrophy p oid props1 = Some (props2, atr)
    /\ Oae.decay_organ p oid organ
       = Some (Oae.with_properties organ props2, rec, atr).
Proof.
  assert (exists props1 rec,
            Oae.recover p oid (Oae.properties organ) = Some (props1, rec))
    as (props1 & rec & Hr)
    by (destruct (recover_cases p oid (Oae.properties organ))
          as [[_ H] | (f & _ & _ & H)]; eauto).
  assert (exists props2 atr, Oae.atrophy p oid props1 = Some (props2, atr))
    as (props2 & atr & Ha)
    by (destruct (atrophy_cases p oid props1)
          as [[_ H] | (s & _ & _ & _ & H)]; eauto).
  exists props1, rec, props2, atr. unfold Oae.decay_organ.
  rewrite Hr. simpl. rewrite Ha. simpl. auto.
Qed.

(** The loop returns, and what it binds to a key is the loop body's
    result for the organ bound to that key before. *)
Lemma decay_loop_get (p : Oae.OAEParams) (items : dict Oae.DigitalOrgan) :
  exists items' recs atrs,
    Oae.decay_loop p items = Some (items', recs, atrs)
    /\ forall oid organ,
         get items oid = Some organ ->
         exists organ' rec atr,
           Oae.decay_organ p oid organ = Some (organ', rec, atr)
           /\ get items' oid = Some organ'
           /\ incl rec recs /\ incl atr atrs.
Proof.
  induction items as [| [k o] rest IH].
  - exists [], [], []. split; [reflexivity |]. intros oid organ H. discriminate H.
  - destruct IH as (rest' & recs & atrs & Hloop & Hrest).
    destruct (decay_organ_returns p k o) as (p1 & rec & p2 & atr & _ & _ & Ho).
    simpl. rewrite Ho. simpl. rewrite Hloop. simpl.
    do 3 eexists. split; [reflexivity |].
    intros oid organ Hget. simpl in Hget |- *.
    destruct (String.eqb k oid) eqn:Ek.
    + apply String.eqb_eq in Ek. subst k. injection Hget as <-.
      do 3 eexists. split; [exact Ho |]. split; [reflexivity |].
      split; apply incl_appl, incl_refl.
    + destruct (Hrest oid organ Hget) as (o' & r & a & H1 & H2 & H3 & H4).
      exists o', r, a. split; [exact H1 |]. split; [exact H2 |].
      split; apply incl_appr; assumption.
Qed.
End Decay.

Section DecayPerOrgan.
Import Py.

Lemma with_properties_same (organ : Oae.DigitalOrgan) :
  Oae.with_properties organ (Oae.properties organ) = organ.
Proof. destruct organ. reflexivity. Qed.

Lemma max_zero_below_one (f r : float) :
  f < 1.0 -> 0 < f -> 0 <= r -> max 0.0 (f - f * r) < 1.0.
Proof.
  intros Hf Hpos Hr. unfold max, gtb.
  destruct (ltb 0.0 (f - f * r)); [nra | reflexivity].
Qed.

(** What the loop body does to one organ, by the two tests it makes: the
    second is made on the fatigue the first has left. *)
Lemma decay_organ_effect (p : Oae.OAEParams) (oid : string)
    (organ organ' : Oae.DigitalOrgan) (rec atr : list string) :
  Oae.decay_organ p oid organ = Some (organ', rec, atr) ->
  let props := Oae.properties organ in
  let props' := Oae.properties organ' in
  (forall f, get props "fatigue" = Some f -> 0 < f ->
     get props' "fatigue" = Some (max 0.0 (f - f * Oae.recovery_rate p))
     /\ rec = [recovered_entry p oid f])
  /\ (forall s, get props "strength" = Some s -> 10.0 < s ->
        get_or props' "fatigue" 0 < 1.0 ->
        get props' "strength" = Some (s - s * (Oae.memory_decay p * 0.01))
        /\ atr = [atrophied_entry p oid s])
  /\ (~ 0 < get_or props "fatigue" 0 ->
      ~ (10.0 < get_or props "strength" 0 /\ get_or props "fatigue" 0 < 1.0) ->
      organ' = organ /\ rec = [] /\ atr = [])
  /\ (get_or props "fatigue" 0 < 1.0 -> 0 <= Oae.recovery_rate p ->
      get_or props' "fatigue" 0 < 1.0).
Proof.
  intros H props props'. subst props'. unfold Oae.decay_organ in H.
  fold props in H.
  destruct (recover_cases p oid props) as [[Hnf Hr] | (f0 & Hf0 & Hpos & Hr)];
    rewrite Hr in H; simpl in H.
  - destruct (atrophy_cases p oid props)
      as [[Hna Ha] | (s0 & Hs0 & Hbig & Hrest & Ha)];
      rewrite Ha in H; simpl in H; injection H as <- <- <-; simpl;
      (split; [intros f Hf Hfp | split; [intros s Hs Hsb Hfat |
        split; [intros Hn1 Hn2 | intros Hlt Hrr]]]).
    + exfalso. apply Hnf. rewrite (get_or_some _ _ _ _ Hf). exact Hfp.
    + exfalso. apply Hna. rewrite (get_or_some _ _ _ _ Hs). auto.
    + split; [apply with_properties_same | auto].
    + exact Hlt.
    + exfalso. apply Hnf. rewrite (get_or_some _ _ _ _ Hf). exact Hfp.
    + rewrite get_set_same. rewrite Hs0 in Hs. injection Hs as <-. auto.
    + exfalso. apply Hn2. rewrite (get_or_some _ _ _ _ Hs0). auto.
    + rewrite get_or_set_other by discriminate. exact Hlt.
  - set (m := max 0.0 (f0 - f0 * Oae.recovery_rate p)) in *.
    destruct (atrophy_cases p oid (set props "fatigue" m))
      as [[Hna Ha] | (s0 & Hs0 & Hbig & Hrest & Ha)];
      rewrite Ha in H; simpl in H; injection H as <- <- <-; simpl;
      (split; [intros f Hf Hfp | split; [intros s Hs Hsb Hfat |
        split; [intros Hn1 Hn2 | intros Hlt Hrr]]]).
    + rewrite get_set_same. rewrite Hf0 in Hf. injection Hf as <-. auto.
    + exfalso. apply Hna. split; [| exact Hfat].
      rewrite get_or_set_other by discriminate.
      rewrite (get_or_some _ _ _ _ Hs). exact Hsb.
    + exfalso. apply Hn1. rewrite (get_or_some _ _ _ _ Hf0). exact Hpos.
    + unfold get_or. rewrite get_set_same.
      rewrite (get_or_some _ _ _ _ Hf0) in Hlt.
      apply max_zero_below_one; assumption.
    + rewrite get_set_other by discriminate. rewrite get_set_same.
      rewrite Hf0 in Hf. injection Hf as <-. auto.
    + rewrite get_set_other in Hs0 by discriminate.
      rewrite get_set_same. rewrite Hs0 in Hs. injection Hs as <-. auto.
    + exfalso. apply Hn1. rewrite (get_or_some _ _ _ _ Hf0). exact Hpos.
    + rewrite get_or_set_other by discriminate. exact Hrest.
Qed.
End DecayPerOrgan.

Section DecayTick.
Import Py.

Lemma decay_loop_keys (p : Oae.OAEParams) (items items' : dict Oae.DigitalOrgan)
    (recs atrs : list string) :
  Oae.decay_loop p items = Some (items', recs, atrs) -> keys items' = keys items.
Proof.
  revert items' recs atrs.
  induction items as [| [k o] rest IH]; intros items' recs atrs H; simpl in H.
  - injection H as <- _ _. reflexivity.
  - destruct (Oae.decay_organ p k o) as [[[o' r] a] |]; [simpl in H | discriminate].
    destruct (Oae.decay_loop p rest) as [[[rest' rs] ats] |];
      [simpl in H | discriminate].
    injection H as <- _ _. simpl. f_equal. apply (IH rest' rs ats eq_refl).
Qed.

(** C4.  [decay_tick] of [src/oae.py] returns, and for every organ of
    the identity: when its fatigue is above 0, the fatigue becomes
    [max(0.0, fatigue - fatigue * recovery_rate)] and the organ is
    listed as recovered; when its strength is above 10.0 and its fatigue,
    as recovery has left it, is below 1.0, the strength becomes
    [strength - strength * (memory_decay * 0.01)], which is
    [strength - strength * memory_decay * 0.01], and the organ is listed
    as atrophied (for a non-negative [recovery_rate] this covers every
    organ whose fatigue was below 1.0 before the tick); when neither test
    holds the organ is as it was. *)
Theorem decay_tick_recovers_and_atrophies
    (self : Oae.OAE) (oid : string) (organ : Oae.DigitalOrgan) :
  get (Oae.digital_organs (Oae.soken self)) oid = Some organ ->
  let p := Oae.params self in
  let props := Oae.properties organ in
  exists summary self' organ',
    Oae.decay_tick self = Some (summary, self')
    /\ get (Oae.digital_organs (Oae.soken self')) oid = Some organ'
    /\ (forall f, get props "fatigue" = Some f -> 0 < f ->
          get (Oae.properties organ') "fatigue"
          = Some (max 0.0 (f - f * Oae.recovery_rate p))
          /\ In (recovered_entry p oid f) (Oae.recovered summary))
    /\ (forall s, get props "strength" = Some s -> 10.0 < s ->
          get_or (Oae.properties organ') "fatigue" 0 < 1.0
          \/ (get_or props "fatigue" 0 < 1.0 /\ 0 <= Oae.recovery_rate p) ->
          get (Oae.properties organ') "strength"
          = Some (s - s * (Oae.memory_decay p * 0.01))
          /\ s - s * (Oae.memory_decay p * 0.01)
             == s - s * Oae.memory_decay p * 0.01
          /\ In (atrophied_entry p oid s) (Oae.atrophied summary))
    /\ (~ 0 < get_or props "fatigue" 0 ->
        ~ (10.0 < get_or props "strength" 0 /\ get_or props "fatigue" 0 < 1.0) ->
        organ' = organ).
Proof.
  intros Hget p props.
  destruct (decay_loop_get p (Oae.digital_organs (Oae.soken self)))
    as (items' & recs & atrs & Hloop & Hall).
  destruct (Hall oid organ Hget) as (organ' & rec & atr & Ho & Hget' & Hrec & Hatr).
  destruct (decay_organ_effect p oid organ organ' rec atr Ho)
    as (Hfat & Hstr & Hsame & Hrest).
  unfold Oae.decay_tick. fold p. rewrite Hloop. simpl.
  do 3 eexists. split; [reflexivity |]. simpl. split; [exact Hget' |].
  split; [| split].
  - intros f Hf Hpos. destruct (Hfat f Hf Hpos) as [H1 H2].
    split; [exact H1 |]. apply Hrec. rewrite H2. left. reflexivity.
  - intros s Hs Hbig Hlow.
    assert (Hlow' : get_or (Oae.properties organ') "fatigue" 0 < 1.0).
    { destruct Hlow as [H | [H Hrr]]; [exact H | exact (Hrest H Hrr)]. }
    destruct (Hstr s Hs Hbig Hlow') as [H1 H2].
    split; [exact H1 |]. split; [ring |].
    apply Hatr. rewrite H2. left. reflexivity.
  - intros Hn1 Hn2. apply (Hsame Hn1 Hn2).
Qed.

Lemma decay_organ_bounds (p : Oae.OAEParams) (oid : string)
    (organ organ' : Oae.DigitalOrgan) (rec atr : list string) :
  Oae.decay_organ p oid organ = Some (organ', rec, atr) ->
  0 <= Oae.memory_decay p <= 1 ->
  nonneg (Oae.properties organ) ->
  nonneg (Oae.properties organ')
  /\ (forall s', get (Oae.properties organ') "strength" = Some s' ->
        exists s, get (Oae.properties organ) "strength" = Some s /\ s' <= s).
Proof.
  intros H [Hm0 Hm1] [Hs Hf]. unfold Oae.decay_organ in H.
  set (props := Oae.properties organ) in *.
  assert (Hmax : forall x, 0 <= max 0.0 x).
  { intro x. apply Qle_trans with (y := 0.0); [discriminate | apply max_ge_l]. }
  destruct (recover_cases p oid props) as [[_ Hr] | (f0 & Hf0 & Hpos & Hr)];
    rewrite Hr in H; simpl in H;
    match type of H with
    | context [Oae.atrophy p oid ?q] =>
        destruct (atrophy_cases p oid q)
          as [[_ Ha] | (s0 & Hs0 & Hbig & _ & Ha)]
    end;
    rewrite Ha in H; simpl in H; injection H as <- _ _; simpl.
  - split; [split; assumption |]. intros s' E. exists s'. split; [exact E | lra].
  - split; [split |].
    + intros v E. rewrite get_set_same in E. injection E as <-. nra.
    + intros v E. rewrite get_set_other in E by discriminate. exact (Hf v E).
    + intros s' E. rewrite get_set_same in E. injection E as <-.
      exists s0. split; [exact Hs0 | nra].
  - split; [split |].
    + intros v E. rewrite get_set_other in E by discriminate. exact (Hs v E).
    + intros v E. rewrite get_set_same in E. injection E as <-. apply Hmax.
    + intros s' E. rewrite get_set_other in E by discriminate.
      exists s'. split; [exact E | lra].
  - rewrite get_set_other in Hs0 by discriminate. split; [split |].
    + intros v E. rewrite get_set_same in E. injection E as <-. nra.
    + intros v E. rewrite get_set_other in E by discriminate.
      rewrite get_set_same in E. injection E as <-. apply Hmax.
    + intros s' E. rewrite get_set_same in E. injection E as <-.
      exists s0. split; [exact Hs0 | nra].
Qed.

(** C6.  When [memory_decay] is in [0, 1] and no organ has a negative
    [strength] or [fatigue], [decay_tick] of [src/oae.py] returns an
    identity with the same organ ids in which no organ has a negative
    [strength] or [fatigue], and no organ's [strength] is above what it
    was; this holds for every [recovery_rate], those in [0, 1] among
    them. *)
Theorem decay_tick_nonneg_and_no_growth (self : Oae.OAE) :
  0 <= Oae.memory_decay (Oae.params self) <= 1 ->
  0 <= Oae.recovery_rate (Oae.params self) <= 1 ->
  (forall oid organ,
      get (Oae.digital_organs (Oae.soken self)) oid = Some organ ->
      nonneg (Oae.properties organ)) ->
  exists summary self',
    Oae.decay_tick self = Some (summary, self')
    /\ keys (Oae.digital_organs (Oae.soken self'))
       = keys (Oae.digital_organs (Oae.soken self))
    /\ forall oid organ,
         get (Oae.digital_organs (Oae.soken self)) oid = Some organ ->
         exists organ',
           get (Oae.digital_organs (Oae.soken self')) oid = Some organ'
           /\ nonneg (Oae.properties organ')
           /\ (forall s',
                 get (Oae.properties organ') "strength" = Some s' ->
                 exists s,
                   get (Oae.properties organ) "strength" = Some s /\ s' <= s).
Proof.
  intros Hmd _ Hnonneg.
  destruct (decay_loop_get (Oae.params self)
              (Oae.digital_organs (Oae.soken self)))
    as (items' & recs & atrs & Hloop & Hall).
  unfold Oae.decay_tick. rewrite Hloop. simpl.
  do 2 eexists. split; [reflexivity |]. simpl.
  split; [exact (decay_loop_keys _ _ _ _ _ Hloop) |].
  intros oid organ Hget.
  destruct (Hall oid organ Hget) as (organ' & rec & atr & Ho & Hget' & _ & _).
  exists organ'. split; [exact Hget' |].
  exact (decay_organ_bounds _ _ _ _ _ _ Ho Hmd (Hnonneg oid organ Hget)).
Qed.
End DecayTick.

Lemma decay_tick_recovers_and_atrophies_witness :
  Py.get (Oae.digital_organs (Oae.soken Sample.tired)) "arm_right"
  = Some Sample.worn
  /\ exists summary self' organ',
       Oae.decay_tick Sample.tired = Some (summary, self')
       /\ Py.get (Oae.digital_organs (Oae.soken self')) "arm_right" = Some organ'
       /\ Py.get (Oae.properties organ') "fatigue"
          = Some (Py.max 0.0 (10.0 - 10.0 * 0.3))
       /\ In "arm_right (fatigue -3.00)" (Oae.recovered summary).
Proof.
  split; [reflexivity |].
  destruct (decay_tick_recovers_and_atrophies Sample.tired "arm_right"
              Sample.worn eq_refl)
    as (summary & self' & organ' & Htick & Hget & Hfat & _).
  exists summary, self', organ'.
  split; [exact Htick |]. split; [exact Hget |].
  apply (Hfat 10.0); reflexivity.
Defined.

Lemma decay_tick_nonneg_and_no_growth_witness :
  0 <= Oae.memory_decay (Oae.params Sample.tired) <= 1
  /\ 0 <= Oae.recovery_rate (Oae.params Sample.tired) <= 1
  /\ nonneg (Oae.properties Sample.worn)
  /\ exists summary self' organ',
       Oae.decay_tick Sample.tired = Some (summary, self')
       /\ Py.get (Oae.digital_organs (Oae.soken self')) "arm_right" = Some organ'
       /\ nonneg (Oae.properties organ').
Proof.
  assert (Hmd : 0 <= Oae.memory_decay (Oae.params Sample.tired) <= 1)
    by (split; discriminate).
  assert (Hrr : 0 <= Oae.recovery_rate (Oae.params Sample.tired) <= 1)
    by (split; discriminate).
  assert (Hw : nonneg (Oae.properties Sample.worn))
    by (split; intros v E; injection E as <-; discriminate).
  split; [exact Hmd |]. split; [exact Hrr |]. split; [exact Hw |].
  destruct (decay_tick_nonneg_and_no_growth Sample.tired Hmd Hrr)
    as (summary & self' & Htick & _ & Hall).
  - intros oid organ H.
    change (Py.get [("arm_right", Sample.worn)] oid = Some organ) in H.
    unfold Py.get in H.
    destruct (String.eqb "arm_right" oid); [| discriminate H].
    injection H as <-. exact Hw.
  - destruct (Hall "arm_right" Sample.worn eq_refl) as (organ' & Hget & Hnn & _).
    exists summary, self', organ'. auto.
Defined.

(** ** The global affect decay *)

Section Affect.
Import Py.
Context {num : Numerals}.

(** C5, as the code has it.  [decay_tick] of [src/core.py] replaces
    [affect_level] (0.0 when absent) by
    [affect_level * (1 - 0.5 * memory_decay)] and returns the value
    before and the value after, whatever the organs; it writes no organ.
    [decay_tick] of [src/oae.py] always returns, and leaves the identity's
    metadata, [affect_level] included, as it was. *)
Theorem decay_tick_affect :
  (forall (self : Core.OAE) (emo : float),
      to_float (get_or (Core.meta (Core.soken self)) "affect_level" (PFloat 0.0))
      = Some emo ->
      let new_emo := emo * (1.0 - 0.5 * Core.memory_decay (Core.params self)) in
      exists summary self',
        Core.decay_tick self = Some (summary, self')
        /\ Core.affect_prev summary = emo
        /\ Core.affect_new summary = new_emo
        /\ get (Core.meta (Core.soken self')) "affect_level" = Some (PFloat new_emo)
        /\ Core.digital_organs (Core.soken self')
           = Core.digital_organs (Core.soken self))
  /\
  (forall (self : Oae.OAE),
      exists summary self',
        Oae.decay_tick self = Some (summary, self')
        /\ Oae.meta (Oae.soken self') = Oae.meta (Oae.soken self)).
Proof.
  split.
  - intros self emo Hemo new_emo. unfold Core.decay_tick.
    rewrite Hemo. simpl. fold new_emo.
    do 2 eexists. split; [reflexivity |]. simpl.
    repeat split. apply get_set_same.
  - intro self.
    destruct (decay_loop_get (Oae.params self)
                (Oae.digital_organs (Oae.soken self)))
      as (items' & recs & atrs & Hloop & _).
    unfold Oae.decay_tick. rewrite Hloop. simpl.
    do 2 eexists. split; reflexivity.
Qed.
End Affect.

Lemma decay_tick_affect_witness :
  Py.to_float (num := Sample.numerals)
    (Py.get_or (Core.meta (Core.soken Sample.oae)) "affect_level" (Py.PFloat 0.0))
  = Some 0.7
  /\ exists summary self',
       @Core.decay_tick Sample.numerals Sample.oae = Some (summary, self')
       /\ Core.affect_prev summary = 0.7
       /\ Core.affect_new summary = 0.7 * (1.0 - 0.5 * 0.55)
       /\ Py.get (Core.meta (Core.soken self')) "affect_level"
          = Some (Py.PFloat (0.7 * (1.0 - 0.5 * 0.55))).
Proof.
  split; [reflexivity |].
  destruct (proj1 (@decay_tick_affect Sample.numerals) Sample.oae 0.7 eq_refl)
    as (summary & self' & Htick & Hprev & Hnew & Hmeta & _).
  exists summary, self'. auto.
Defined.

(** C5 fails on [src/oae.py]: with [affect_level = 0.7] and
    [memory_decay = 0.10], its [decay_tick] returns and [affect_level]
    is still 0.7, which is not [0.7 * (1 - 0.5 * 0.10)]. *)
Lemma oae_decay_tick_keeps_affect :
  (exists summary self',
      Oae.decay_tick Sample.tired = Some (summary, self')
      /\ Py.get (Oae.meta (Oae.soken self')) "affect_level"
         = Some (Py.PFloat 0.7))
  /\ ~ 0.7 == 0.7 * (1.0 - 0.5 * Oae.memory_decay (Oae.params Sample.tired)).
Proof.
  split.
  - do 2 eexists. split; reflexivity.
  - discriminate.
Qed.

(** ** Checkpoints *)

Section Checkpoint.
Import Py.
Context {codec : Codec} {os : Os}.

(** C9, as the code has it.  [checkpoint] first has the operating system
    make the checkpoint directory, then serializes the snapshot, hashes
    the serialized bytes and has those very bytes written to a path made
    from the hash; it returns that path when both calls succeed and
    raises when either fails.  In [src/oae.py] the path is the directory
    joined with the last [:]-separated part of the identity id, the label
    and the first 12 hex characters of the hash.  In [src/core.py] it is
    the directory joined with the label and the first 16 hex characters
    of the hash, which is what [verify_integrity] computes from the
    bytes; the identity id is no part of that name, and a directory that
    is no [str] makes the call raise as well. *)
Theorem checkpoint_path_from_content_hash :
  (forall (self : Oae.OAE) (now : float) (label : string) (w : world),
      let data := json_dumps {| indent := Some 2%nat; separators := None;
                                ensure_ascii := true |}
                             (Oae.snapshot self now label) in
      let path := path_join (Oae.ckpt_dir self)
                    (spec_checkpoint_name
                       (last_segment ":" (Oae.did (Oae.soken self)))
                       label (Oae.sha256_hex data) 12) in
      match Oae.checkpoint self now label w with
      | Some (returned, w') =>
          returned = path
          /\ exists w1,
               makedirs (Oae.ckpt_dir self) w = Some w1
               /\ write_file path data w1 = Some w'
      | None =>
          makedirs (Oae.ckpt_dir self) w = None
          \/ exists w1,
               makedirs (Oae.ckpt_dir self) w = Some w1
               /\ write_file path data w1 = None
      end)
  /\
  (forall (self : Core.OAE) (now : float) (label : string) (w : world),
      let data := json_dumps {| indent := None; separators := Some (",", ":");
                                ensure_ascii := false |}
                             (Core.payload self now label) in
      let path dir :=
        path_join dir
          (label ++ "_" ++ take 16 (Core.verify_integrity data) ++ ".json") in
      match Core.checkpoint self now label w with
      | Some (returned, w') =>
          exists dir w1,
            Core.checkpoint_dir self = PStr dir
            /\ returned = path dir
            /\ makedirs dir w = Some w1
            /\ write_file (path dir) data w1 = Some w'
      | None =>
          (forall dir, Core.checkpoint_dir self <> PStr dir)
          \/ exists dir,
               Core.checkpoint_dir self = PStr dir
               /\ (makedirs dir w = None
                   \/ exists w1,
                        makedirs dir w = Some w1
                        /\ write_file (path dir) data w1 = None)
      end).
Proof.
  split.
  - intros self now label w data path. unfold Oae.checkpoint.
    change (Oae.path self now label) with path.
    change (Oae.data_bytes self now label) with data.
    destruct (makedirs (Oae.ckpt_dir self) w) as [w1 |] eqn:Em; simpl;
      [| left; reflexivity].
    destruct (write_file path data w1) as [w2 |] eqn:Ew; simpl.
    + split; [reflexivity |]. exists w1. split; [reflexivity | exact Ew].
    + right. exists w1. split; [reflexivity | exact Ew].
  - intros self now label w data path. unfold Core.checkpoint.
    destruct (Core.checkpoint_dir self) as [| b | x | dir];
      try (left; intros dir H; discriminate H).
    change (Core.path dir self now label) with (path dir).
    change (Core.raw self now label) with data.
    destruct (makedirs dir w) as [w1 |] eqn:Em; simpl.
    + destruct (write_file (path dir) data w1) as [w2 |] eqn:Ew; simpl.
      * exists dir, w1. split; [reflexivity |]. split; [reflexivity |].
        split; [exact Em | exact Ew].
      * right. exists dir. split; [reflexivity |]. right.
        exists w1. split; [exact Em | exact Ew].
    + right. exists dir. split; [reflexivity |]. left. exact Em.
Qed.
End Checkpoint.

(** C9 fails on [src/core.py]: for the driver's identity
    [did:mitas:example] and label, the path [checkpoint] returns is not
    the directory joined with a name made of the identity id (whole, or
    its last part), the label and the first [n] characters of the digest,
    for any [n] and whatever the hash, the serializer and the operating
    system. *)
Lemma core_checkpoint_name_omits_identity :
  ~ exists (codec : Py.Codec) (os : Py.Os) (id : string) (n : nat)
           (w w' : Py.world),
      (id = Core.did (Core.soken Sample.oae)
       \/ id = Py.last_segment ":" (Core.did (Core.soken Sample.oae)))
      /\ Core.checkpoint Sample.oae 0 "post_limbs_integration" w
         = Some (Py.path_join "./ckpt"
                   (spec_checkpoint_name id "post_limbs_integration"
                      (Core.sha256_hex
                         (Core.raw Sample.oae 0 "post_limbs_integration"))
                      n),
                 w').
Proof.
  intros (codec & os & id & n & w & w' & Hid & H). revert H.
  unfold Core.checkpoint.
  change (Core.checkpoint_dir Sample.oae) with (Py.PStr "./ckpt").
  cbv beta iota.
  destruct (Py.makedirs "./ckpt" w) as [w1 |]; simpl; [| discriminate].
  destruct (Py.write_file
              (Core.path "./ckpt" Sample.oae 0 "post_limbs_integration")
              (Core.raw Sample.oae 0 "post_limbs_integration") w1)
    as [w2 |]; simpl; [| discriminate].
  intro H. injection H as Hpath _.
  destruct Hid as [-> | ->]; vm_compute in Hpath; discriminate Hpath.
Qed.

(** ** Further properties of [resonance] ([src/oae.py]) *)

Section ResonanceMore.
Import Py.
Context {num : Numerals}.

Lemma keys_set_present {V : Type} (d : dict V) (k : string) (v0 v : V) :
  get d k = Some v0 -> keys (set d k v) = keys d.
Proof.
  induction d as [| [k' v'] d IH]; simpl; intro H.
  - discriminate H.
  - destruct (k' =? k)%string; simpl; [reflexivity |].
    f_equal. exact (IH H).
Qed.

(** What a call that finds an organ returns, in full. *)
Lemma resonance_found (self : Oae.OAE) (now : float) (context : dict pyval)
    (k : string) (organ : Oae.DigitalOrgan) (intensity : float) :
  targets context (Oae.digital_organs (Oae.soken self)) k organ ->
  intensity_of context = Some intensity ->
  exists report,
    Oae.resonance self now context
    = Some (report,
            Oae.with_meta
              (Oae.with_organs self
                 (set (Oae.digital_organs (Oae.soken self)) k
                      (stimulated (Oae.params self) intensity organ)))
              (set (set (Oae.meta (Oae.soken self))
                        "last_active_organ" (PStr k))
                   "last_active_ts" (PFloat now)))
    /\ (contains "motor" (Oae.schema organ) = false -> report = Oae.ignored)
    /\ (contains "motor" (Oae.schema organ) = true ->
        get report "organ" = Some (PStr k) /\ get report "status" = None).
Proof.
  intros Ht Hint. unfold Oae.resonance, stimulated.
  unfold intensity_of in Hint. rewrite Hint. simpl.
  rewrite (find_target_known _ _ _ _ Ht).
  destruct Ht as (Hid & _ & _). rewrite Hid.
  destruct (contains "motor" (Oae.schema organ)) eqn:Em.
  - rewrite motor_update_props. simpl. eexists. split; [reflexivity |].
    split; [discriminate | intros _; split; reflexivity].
  - destruct (contains "cognitive" (Oae.schema organ)); simpl;
      (eexists; split; [reflexivity |]; split; [reflexivity | discriminate]).
Qed.

(** What a call returns when it finds no organ, or raises. *)
Lemma resonance_not_found (self : Oae.OAE) (now : float)
    (context : dict pyval) :
  Oae.find_target (get_or context "organ_id" PNone)
                  (Oae.digital_organs (Oae.soken self)) = None ->
  Oae.resonance self now context
  = match intensity_of context with
    | Some _ => Some (Oae.ignored, self)
    | None => None
    end.
Proof.
  intro Hf. unfold Oae.resonance, intensity_of.
  destruct (to_float (get_or context "intensity" (PFloat 0.5))); simpl;
    [rewrite Hf |]; reflexivity.
Qed.

Lemma find_target_targets (context : dict pyval)
    (organs : dict Oae.DigitalOrgan) (k : string) (organ : Oae.DigitalOrgan) :
  Oae.find_target (get_or context "organ_id" PNone) organs = Some (k, organ) ->
  targets context organs k organ.
Proof.
  unfold Oae.find_target, targets.
  destruct (get_or context "organ_id" PNone) as [| b | x | k0]; simpl;
    try (destruct b; discriminate);
    try (destruct (negb (Qeq_bool x 0)); discriminate); try discriminate.
  destruct (k0 =? "")%string eqn:Ek; simpl; [discriminate |].
  destruct (get organs k0) as [o |] eqn:Eg; [| discriminate].
  intro H. injection H as <- <-.
  apply String.eqb_neq in Ek. auto.
Qed.

(** X2.  A stimulus whose [organ_id] is falsy (the empty string, [None],
    [False], 0.0) is ignored and changes nothing, even when the empty
    string is a key of the organ dict. *)
Theorem resonance_falsy_id_ignored
    (self : Oae.OAE) (now : float) (context : dict pyval) (intensity : float) :
  truthy (get_or context "organ_id" PNone) = false ->
  intensity_of context = Some intensity ->
  Oae.resonance self now context = Some (Oae.ignored, self).
Proof.
  intros Hfalsy Hint.
  rewrite resonance_not_found, Hint; [reflexivity |].
  unfold Oae.find_target. rewrite Hfalsy. reflexivity.
Qed.
End ResonanceMore.

Lemma resonance_falsy_id_ignored_witness :
  Py.get (Oae.digital_organs (Oae.soken Demo.nameless)) ""
  = Some (Sample.limb "" "motor_v1_power" false)
  /\ @Oae.resonance Sample.numerals Demo.nameless 0
       [("organ_id", Py.PStr ""); ("intensity", Py.PFloat 1.0)]
     = Some (Oae.ignored, Demo.nameless).
Proof.
  split; [reflexivity |].
  apply (@resonance_falsy_id_ignored Sample.numerals Demo.nameless 0
           [("organ_id", Py.PStr ""); ("intensity", Py.PFloat 1.0)] 1.0);
    reflexivity.
Defined.

Section ResonanceFrame.
Import Py.
Context {num : Numerals}.

Lemma stimulated_frame (p : Oae.OAEParams) (intensity : float)
    (organ : Oae.DigitalOrgan) :
  Oae.organ_id (stimulated p intensity organ) = Oae.organ_id organ
  /\ Oae.schema (stimulated p intensity organ) = Oae.schema organ
  /\ Oae.volatile (stimulated p intensity organ) = Oae.volatile organ
  /\ same_other_properties (Oae.properties organ)
       (Oae.properties (stimulated p intensity organ)).
Proof.
  unfold stimulated, same_other_properties.
  destruct (contains "motor" (Oae.schema organ)); simpl; repeat split.
  intros name Hs Hf.
  rewrite get_set_other by (intro E; apply Hf; symmetry; exact E).
  apply get_set_other. intro E. apply Hs. symmetry. exact E.
Qed.

Lemma min_ge (a b c : float) : c <= a -> c <= b -> c <= min a b.
Proof. intros Ha Hb. unfold min. destruct (ltb b a); assumption. Qed.

Lemma min_below (a b : float) : b < a -> min a b = b.
Proof. intro H. unfold min. apply ltb_lt in H. rewrite H. reflexivity. Qed.

(** X3.  A call of [resonance] that returns keeps the identity id, the
    parameters and the checkpoint directory, adds and removes no organ,
    and keeps every organ's id, schema, volatile flag and every property
    other than [strength] and [fatigue]; an organ the stimulus does not
    name is kept whole. *)
Theorem resonance_frame
    (self self' : Oae.OAE) (now : float) (context report : dict pyval) :
  Oae.resonance self now context = Some (report, self') ->
  Oae.did (Oae.soken self') = Oae.did (Oae.soken self)
  /\ Oae.params self' = Oae.params self
  /\ Oae.ckpt_dir self' = Oae.ckpt_dir self
  /\ keys (Oae.digital_organs (Oae.soken self'))
     = keys (Oae.digital_organs (Oae.soken self))
  /\ forall k organ,
       get (Oae.digital_organs (Oae.soken self)) k = Some organ ->
       exists organ',
         get (Oae.digital_organs (Oae.soken self')) k = Some organ'
         /\ Oae.organ_id organ' = Oae.organ_id organ
         /\ Oae.schema organ' = Oae.schema organ
         /\ Oae.volatile organ' = Oae.volatile organ
         /\ same_other_properties (Oae.properties organ) (Oae.properties organ')
         /\ (get_or context "organ_id" PNone <> PStr k -> organ' = organ).
Proof.
  intro Hres.
  destruct (Oae.find_target (get_or context "organ_id" PNone)
              (Oae.digital_organs (Oae.soken self)))
    as [[k0 o0] |] eqn:Ef.
  - apply find_target_targets in Ef.
    destruct (intensity_of context) as [i |] eqn:Ei.
    + destruct (resonance_found self now context k0 o0 i Ef Ei)
        as (r & Hfound & _).
      rewrite Hfound in Hres. injection Hres as _ <-. simpl.
      destruct Ef as (Hid & _ & Hget0).
      repeat split.
      * apply (keys_set_present _ _ _ _ Hget0).
      * intros k organ Hget.
        destruct (String.eqb k0 k) eqn:Ek.
        -- apply String.eqb_eq in Ek. subst k0.
           rewrite Hget in Hget0. injection Hget0 as <-.
           rewrite get_set_same. eexists. split; [reflexivity |].
           destruct (stimulated_frame (Oae.params self) i organ)
             as (H1 & H2 & H3 & H4).
           repeat split; try assumption.
           intro Hne. exfalso. apply Hne. exact Hid.
        -- apply String.eqb_neq in Ek.
           rewrite (get_set_other _ _ _ _ Ek). exists organ.
           repeat split; assumption.
    + unfold Oae.resonance in Hres. unfold intensity_of in Ei.
      rewrite Ei in Hres. discriminate Hres.
  - rewrite (resonance_not_found self now context Ef) in Hres.
    destruct (intensity_of context); [| discriminate Hres].
    injection Hres as _ <-. repeat split.
    intros k organ Hget. exists organ. repeat split; assumption.
Qed.

(** X4.  A call of [resonance] that returns gives the ignored report
    exactly when the stimulus names no organ whose schema contains
    "motor". *)
Theorem resonance_ignored_iff_no_motor_target
    (self self' : Oae.OAE) (now : float) (context report : dict pyval) :
  Oae.resonance self now context = Some (report, self') ->
  report = Oae.ignored
  <-> (forall k organ,
          targets context (Oae.digital_organs (Oae.soken self)) k organ ->
          contains "motor" (Oae.schema organ) = false).
Proof.
  intro Hres.
  destruct (Oae.find_target (get_or context "organ_id" PNone)
              (Oae.digital_organs (Oae.soken self)))
    as [[k0 o0] |] eqn:Ef.
  - pose proof (find_target_targets _ _ _ _ Ef) as Ht.
    destruct (intensity_of context) as [i |] eqn:Ei.
    + destruct (resonance_found self now context k0 o0 i Ht Ei)
        as (r & Hfound & Hnot & Hmotor).
      rewrite Hfound in Hres. injection Hres as <- _.
      destruct (contains "motor" (Oae.schema o0)) eqn:Em.
      * destruct (Hmotor eq_refl) as [Horgan _]. split.
        -- intro E. rewrite E in Horgan. discriminate Horgan.
        -- intro H. specialize (H k0 o0 Ht). rewrite Em in H. discriminate H.
      * split; [| intros _; apply Hnot; reflexivity].
        intros _ k organ Ht'.
        rewrite (find_target_known _ _ _ _ Ht') in Ef.
        injection Ef as _ ->. exact Em.
    + unfold Oae.resonance in Hres. unfold intensity_of in Ei.
      rewrite Ei in Hres. discriminate Hres.
  - rewrite (resonance_not_found self now context Ef) in Hres.
    destruct (intensity_of context); [| discriminate Hres].
    injection Hres as <- _. split; [| reflexivity].
    intros _ k organ Ht. rewrite (find_target_known _ _ _ _ Ht) in Ef.
    discriminate Ef.
Qed.

(** X5.  Whenever the stimulus names an organ, motor or not, [resonance]
    records the organ id under [last_active_organ] and the time under
    [last_active_ts], and leaves every other key of [meta] as it was. *)
Theorem resonance_records_activity
    (self : Oae.OAE) (now : float) (context : dict pyval)
    (k : string) (organ : Oae.DigitalOrgan) (intensity : float) :
  targets context (Oae.digital_organs (Oae.soken self)) k organ ->
  intensity_of context = Some intensity ->
  exists report self',
    Oae.resonance self now context = Some (report, self')
    /\ get (Oae.meta (Oae.soken self')) "last_active_organ" = Some (PStr k)
    /\ get (Oae.meta (Oae.soken self')) "last_active_ts" = Some (PFloat now)
    /\ forall name, name <> "last_active_organ" -> name <> "last_active_ts" ->
         get (Oae.meta (Oae.soken self')) name
         = get (Oae.meta (Oae.soken self)) name.
Proof.
  intros Ht Hint.
  destruct (resonance_found self now context k organ intensity Ht Hint)
    as (report & Hres & _).
  do 2 eexists. split; [exact Hres |]. simpl. split; [| split].
  - rewrite get_set_other by discriminate. apply get_set_same.
  - apply get_set_same.
  - intros name H1 H2.
    rewrite get_set_other by (intro E; apply H2; symmetry; exact E).
    apply get_set_other. intro E. apply H1. symmetry. exact E.
Qed.

(** X6.  Below the cap of 100.0 the motor update is a plain sum: when
    [old_fatigue + intensity * 10.0] is below 100.0 it is the new fatigue,
    and likewise the strength.  Nothing bounds them from below: a negative
    intensity lowers both, below zero too. *)
Theorem resonance_additive_below_cap
    (self : Oae.OAE) (now : float) (context : dict pyval)
    (k : string) (organ : Oae.DigitalOrgan) (intensity : float) :
  targets context (Oae.digital_organs (Oae.soken self)) k organ ->
  contains "motor" (Oae.schema organ) = true ->
  intensity_of context = Some intensity ->
  let old_strength := get_or (Oae.properties organ) "strength" 10.0 in
  let old_fatigue := get_or (Oae.properties organ) "fatigue" 0.0 in
  let gain := Oae.effective_impact intensity (Oae.params self)
              * Oae.learn_rate (Oae.params self) in
  exists report self' organ',
    Oae.resonance self now context = Some (report, self')
    /\ get (Oae.digital_organs (Oae.soken self')) k = Some organ'
    /\ (old_fatigue + intensity * 10.0 < 100.0 ->
        get (Oae.properties organ') "fatigue"
        = Some (old_fatigue + intensity * 10.0))
    /\ (old_strength + gain < 100.0 ->
        get (Oae.properties organ') "strength" = Some (old_strength + gain)).
Proof.
  intros Ht Hmotor Hint old_strength old_fatigue gain.
  destruct (resonance_found self now context k organ intensity Ht Hint)
    as (report & Hres & _).
  do 3 eexists. split; [exact Hres |]. simpl.
  rewrite get_set_same. split; [reflexivity |].
  unfold stimulated. rewrite Hmotor. simpl. split; intro Hlt.
  - rewrite get_set_same. f_equal. apply min_below. exact Hlt.
  - rewrite get_set_other by discriminate. rewrite get_set_same.
    f_equal. apply min_below. exact Hlt.
Qed.

(** X7.  For a motor organ within the bounds, a stimulus of non-negative
    intensity, with [learn_rate >= 0] and [entropy_guard <= 1], lowers
    neither the strength nor the fatigue. *)
Theorem resonance_motor_never_lowers
    (self : Oae.OAE) (now : float) (context : dict pyval)
    (k : string) (organ : Oae.DigitalOrgan) (intensity : float) :
  targets context (Oae.digital_organs (Oae.soken self)) k organ ->
  contains "motor" (Oae.schema organ) = true ->
  intensity_of context = Some intensity ->
  0 <= intensity ->
  0 <= Oae.learn_rate (Oae.params self) ->
  Oae.entropy_guard (Oae.params self) <= 1 ->
  within_bounds (Oae.properties organ) ->
  exists report self' organ' strength' fatigue',
    Oae.resonance self now context = Some (report, self')
    /\ get (Oae.digital_organs (Oae.soken self')) k = Some organ'
    /\ get (Oae.properties organ') "strength" = Some strength'
    /\ get (Oae.properties organ') "fatigue" = Some fatigue'
    /\ get_or (Oae.properties organ) "strength" 10.0 <= strength'
    /\ get_or (Oae.properties organ) "fatigue" 0.0 <= fatigue'.
Proof.
  intros Ht Hmotor Hint Hi Hlr Hg [Hbs Hbf].
  destruct (resonance_found self now context k organ intensity Ht Hint)
    as (report & Hres & _).
  do 5 eexists. split; [exact Hres |]. simpl.
  rewrite get_set_same. split; [reflexivity |].
  unfold stimulated. rewrite Hmotor. simpl.
  split; [rewrite get_set_other by discriminate; apply get_set_same |].
  split; [apply get_set_same |].
  assert (Hs : get_or (Oae.properties organ) "strength" 10.0 <= 100.0).
  { unfold get_or. destruct (get (Oae.properties organ) "strength") as [v |];
      [apply (Hbs v eq_refl) | discriminate]. }
  assert (Hf : get_or (Oae.properties organ) "fatigue" 0.0 <= 100.0).
  { unfold get_or. destruct (get (Oae.properties organ) "fatigue") as [v |];
      [apply (Hbf v eq_refl) | discriminate]. }
  split; apply min_ge; try assumption.
  - unfold Oae.effective_impact.
    assert (0 <= intensity * (1.0 - Oae.entropy_guard (Oae.params self) * 0.3))
      by nra.
    nra.
  - lra.
Qed.
End ResonanceFrame.

Lemma sample_lift_targets :
  targets Sample.lift (Oae.digital_organs (Oae.soken Sample.engine))
          "arm_right" (Sample.limb "arm_right" "motor_v1_power" true).
Proof. repeat split. discriminate. Qed.

Lemma resonance_frame_witness :
  exists report self',
    @Oae.resonance Sample.numerals Sample.engine 0 Sample.lift
    = Some (report, self')
    /\ Py.keys (Oae.digital_organs (Oae.soken self'))
       = ["arm_left"; "arm_right"; "legs"]
    /\ Py.get (Oae.digital_organs (Oae.soken self')) "legs"
       = Some (Sample.limb "legs" "motor_v1_endurance" false).
Proof.
  destruct (@Oae.resonance Sample.numerals Sample.engine 0 Sample.lift)
    as [[report self'] |] eqn:E; [| vm_compute in E; discriminate E].
  exists report, self'. split; [reflexivity |].
  destruct (@resonance_frame Sample.numerals _ _ _ _ _ E)
    as (_ & _ & _ & Hkeys & Hall).
  split; [exact Hkeys |].
  destruct (Hall "legs" (Sample.limb "legs" "motor_v1_endurance" false) eq_refl)
    as (organ' & Hget & _ & _ & _ & _ & Hsame).
  rewrite Hget. f_equal. apply Hsame. discriminate.
Defined.

Lemma resonance_ignored_iff_no_motor_target_witness :
  exists report self',
    @Oae.resonance Sample.numerals Sample.thinker 7 Sample.recall
    = Some (report, self')
    /\ (report = Oae.ignored
        <-> forall k organ,
              targets Sample.recall
                (Oae.digital_organs (Oae.soken Sample.thinker)) k organ ->
              Py.contains "motor" (Oae.schema organ) = false).
Proof.
  destruct (@Oae.resonance Sample.numerals Sample.thinker 7 Sample.recall)
    as [[report self'] |] eqn:E; [| vm_compute in E; discriminate E].
  exists report, self'. split; [reflexivity |].
  exact (@resonance_ignored_iff_no_motor_target Sample.numerals _ _ _ _ _ E).
Defined.

Lemma resonance_records_activity_witness :
  exists report self',
    @Oae.resonance Sample.numerals Sample.engine 5 Sample.lift
    = Some (report, self')
    /\ Py.get (Oae.meta (Oae.soken self')) "last_active_organ"
       = Some (Py.PStr "arm_right")
    /\ Py.get (Oae.meta (Oae.soken self')) "last_active_ts"
       = Some (Py.PFloat 5).
Proof.
  destruct (@resonance_records_activity Sample.numerals Sample.engine 5
              Sample.lift "arm_right" _ 0.9 sample_lift_targets eq_refl)
    as (report & self' & Hres & Horgan & Hts & _).
  exists report, self'. auto.
Defined.

Lemma resonance_additive_below_cap_witness :
  targets Demo.drain (Oae.digital_organs (Oae.soken Sample.engine))
          "arm_right" (Sample.limb "arm_right" "motor_v1_power" true)
  /\ exists report self' organ',
       @Oae.resonance Sample.numerals Sample.engine 0 Demo.drain
       = Some (report, self')
       /\ Py.get (Oae.digital_organs (Oae.soken self')) "arm_right"
          = Some organ'
       /\ Py.get (Oae.properties organ') "fatigue"
          = Some (0.0 + (-0.5) * 10.0)
       /\ 0.0 + (-0.5) * 10.0 < 0.
Proof.
  assert (Ht : targets Demo.drain
                 (Oae.digital_organs (Oae.soken Sample.engine))
                 "arm_right" (Sample.limb "arm_right" "motor_v1_power" true)).
  { repeat split. discriminate. }
  split; [exact Ht |].
  destruct (@resonance_additive_below_cap Sample.numerals Sample.engine 0
              Demo.drain "arm_right" _ (-0.5) Ht eq_refl eq_refl)
    as (report & self' & organ' & Hres & Hget & Hfat & _).
  exists report, self', organ'.
  split; [exact Hres |]. split; [exact Hget |].
  split; [apply Hfat |]; reflexivity.
Defined.

Lemma resonance_motor_never_lowers_witness :
  within_bounds Oae.default_properties
  /\ exists report self' organ' strength' fatigue',
       @Oae.resonance Sample.numerals Sample.engine 0 Sample.lift
       = Some (report, self')
       /\ Py.get (Oae.digital_organs (Oae.soken self')) "arm_right"
          = Some organ'
       /\ Py.get (Oae.properties organ') "strength" = Some strength'
       /\ Py.get (Oae.properties organ') "fatigue" = Some fatigue'
       /\ 10.0 <= strength'
       /\ 0.0 <= fatigue'.
Proof.
  assert (Hb : within_bounds Oae.default_properties).
  { split; intros v Hv; injection Hv as <-; discriminate. }
  split; [exact Hb |].
  apply (@resonance_motor_never_lowers Sample.numerals Sample.engine 0
           Sample.lift "arm_right" _ 0.9 sample_lift_targets eq_refl eq_refl);
    [discriminate | discriminate | discriminate | exact Hb].
Defined.

(** ** Further properties of [decay_tick] ([src/oae.py]) *)

Section DecayMore.
Import Py.

(** One tick at one organ: the properties after the recovery test
    ([props1]) and after the atrophy test ([props2]). *)
Lemma decay_tick_at (self : Oae.OAE) (oid : string) (organ : Oae.DigitalOrgan) :
  get (Oae.digital_organs (Oae.soken self)) oid = Some organ ->
  let p := Oae.params self in
  let props := Oae.properties organ in
  exists summary self' props1 props2,
    Oae.decay_tick self = Some (summary, self')
    /\ Oae.params self' = p
    /\ get (Oae.digital_organs (Oae.soken self')) oid
       = Some (Oae.with_properties organ props2)
    /\ ((~ 0 < get_or props "fatigue" 0 /\ props1 = props)
        \/ (exists f,
              get props "fatigue" = Some f /\ 0 < f
              /\ props1 = set props "fatigue"
                            (max 0.0 (f - f * Oae.recovery_rate p))))
    /\ ((~ (10.0 < get_or props1 "strength" 0
            /\ get_or props1 "fatigue" 0 < 1.0)
         /\ props2 = props1)
        \/ (exists s,
              get props1 "strength" = Some s /\ 10.0 < s
              /\ get_or props1 "fatigue" 0 < 1.0
              /\ props2 = set props1 "strength"
                            (s - s * (Oae.memory_decay p * 0.01)))).
Proof.
  intros Hget p props.
  destruct (decay_loop_get p (Oae.digital_organs (Oae.soken self)))
    as (items' & recs & atrs & Hloop & Hall).
  destruct (Hall oid organ Hget) as (organ' & rec & atr & Ho & Hget' & _ & _).
  unfold Oae.decay_tick. fold p. rewrite Hloop. simpl.
  unfold Oae.decay_organ in Ho. fold props in Ho.
  assert (exists props1 rec1,
             Oae.recover p oid props = Some (props1, rec1)
             /\ ((~ 0 < get_or props "fatigue" 0 /\ props1 = props)
                 \/ (exists f,
                       get props "fatigue" = Some f /\ 0 < f
                       /\ props1 = set props "fatigue"
                                     (max 0.0 (f - f * Oae.recovery_rate p)))))
    as (props1 & rec1 & Hr & Hshape1).
  { destruct (recover_cases p oid props) as [[Hn H] | (f & Hf & Hpos & H)];
      do 2 eexists; (split; [exact H |]); [left | right]; eauto. }
  rewrite Hr in Ho. simpl in Ho.
  assert (exists props2 atr2,
             Oae.atrophy p oid props1 = Some (props2, atr2)
             /\ ((~ (10.0 < get_or props1 "strength" 0
                     /\ get_or props1 "fatigue" 0 < 1.0)
                  /\ props2 = props1)
                 \/ (exists s,
                       get props1 "strength" = Some s /\ 10.0 < s
                       /\ get_or props1 "fatigue" 0 < 1.0
                       /\ props2 = set props1 "strength"
                                     (s - s * (Oae.memory_decay p * 0.01)))))
    as (props2 & atr2 & Ha & Hshape2).
  { destruct (atrophy_cases p oid props1)
      as [[Hn H] | (s & Hs & Hbig & Hlow & H)];
      do 2 eexists; (split; [exact H |]); [left | right]; eauto 6. }
  rewrite Ha in Ho. simpl in Ho. injection Ho as <- _ _.
  exists {| Oae.recovered := recs; Oae.atrophied := atrs |}.
  eexists. exists props1, props2.
  split; [reflexivity |]. split; [reflexivity |]. simpl.
  split; [exact Hget' |]. split; assumption.
Qed.

(** X8.  With a non-negative [recovery_rate], one [decay_tick] never
    raises an organ's fatigue. *)
Theorem decay_tick_fatigue_never_grows
    (self : Oae.OAE) (oid : string) (organ : Oae.DigitalOrgan) (f : float) :
  0 <= Oae.recovery_rate (Oae.params self) ->
  get (Oae.digital_organs (Oae.soken self)) oid = Some organ ->
  get (Oae.properties organ) "fatigue" = Some f ->
  exists summary self' organ' f',
    Oae.decay_tick self = Some (summary, self')
    /\ get (Oae.digital_organs (Oae.soken self')) oid = Some organ'
    /\ get (Oae.properties organ') "fatigue" = Some f'
    /\ f' <= f.
Proof.
  intros Hrr Hget Hf.
  destruct (decay_tick_at self oid organ Hget)
    as (summary & self' & props1 & props2 & Htick & _ & Hget' & H1 & H2).
  assert (exists f', get props1 "fatigue" = Some f' /\ f' <= f)
    as (f' & Hf' & Hle).
  { destruct H1 as [[_ ->] | (f0 & Hf0 & Hpos & ->)].
    - exists f. split; [exact Hf | apply Qle_refl].
    - rewrite Hf in Hf0. injection Hf0 as <-.
      eexists. split; [apply get_set_same |].
      unfold max, gtb.
      destruct (ltb 0.0 (f - f * Oae.recovery_rate (Oae.params self)));
        [nra | lra]. }
  exists summary, self'. eexists. exists f'.
  split; [exact Htick |]. split; [exact Hget' |]. simpl.
  split; [| exact Hle].
  destruct H2 as [[_ ->] | (s & _ & _ & _ & ->)]; [exact Hf' |].
  rewrite get_set_other by discriminate. exact Hf'.
Qed.

(** X9.  With [recovery_rate >= 1], one [decay_tick] takes every positive
    fatigue to exactly 0.0: the floor of line 105. *)
Theorem decay_tick_full_recovery
    (self : Oae.OAE) (oid : string) (organ : Oae.DigitalOrgan) (f : float) :
  1 <= Oae.recovery_rate (Oae.params self) ->
  get (Oae.digital_organs (Oae.soken self)) oid = Some organ ->
  get (Oae.properties organ) "fatigue" = Some f ->
  0 < f ->
  exists summary self' organ',
    Oae.decay_tick self = Some (summary, self')
    /\ get (Oae.digital_organs (Oae.soken self')) oid = Some organ'
    /\ get (Oae.properties organ') "fatigue" = Some 0.0.
Proof.
  intros Hrr Hget Hf Hpos.
  destruct (decay_tick_at self oid organ Hget)
    as (summary & self' & props1 & props2 & Htick & _ & Hget' & H1 & H2).
  assert (Hf1 : get props1 "fatigue" = Some 0.0).
  { destruct H1 as [[Hn _] | (f0 & Hf0 & _ & ->)].
    - exfalso. apply Hn. rewrite (get_or_some _ _ _ _ Hf). exact Hpos.
    - rewrite Hf in Hf0. injection Hf0 as <-. rewrite get_set_same. f_equal.
      unfold max, gtb.
      destruct (ltb 0.0 (f - f * Oae.recovery_rate (Oae.params self))) eqn:E;
        [| reflexivity].
      apply ltb_lt in E. exfalso. nra. }
  exists summary, self'. eexists.
  split; [exact Htick |]. split; [exact Hget' |]. simpl.
  destruct H2 as [[_ ->] | (s & _ & _ & _ & ->)]; [exact Hf1 |].
  rewrite get_set_other by discriminate. exact Hf1.
Qed.

(** X10.  An organ whose strength is at most 10.0 keeps its strength in
    a [decay_tick], whatever the parameters: atrophy stops at the
    baseline. *)
Theorem decay_tick_keeps_baseline_strength
    (self : Oae.OAE) (oid : string) (organ : Oae.DigitalOrgan) (s : float) :
  get (Oae.digital_organs (Oae.soken self)) oid = Some organ ->
  get (Oae.properties organ) "strength" = Some s ->
  s <= 10.0 ->
  exists summary self' organ',
    Oae.decay_tick self = Some (summary, self')
    /\ get (Oae.digital_organs (Oae.soken self')) oid = Some organ'
    /\ get (Oae.properties organ') "strength" = Some s.
Proof.
  intros Hget Hs Hle.
  destruct (decay_tick_at self oid organ Hget)
    as (summary & self' & props1 & props2 & Htick & _ & Hget' & H1 & H2).
  assert (Hs1 : get props1 "strength" = Some s).
  { destruct H1 as [[_ ->] | (f0 & _ & _ & ->)]; [exact Hs |].
    rewrite get_set_other by discriminate. exact Hs. }
  exists summary, self'. eexists.
  split; [exact Htick |]. split; [exact Hget' |]. simpl.
  destruct H2 as [[_ ->] | (s0 & Hs0 & Hbig & _ & _)]; [exact Hs1 |].
  rewrite Hs1 in Hs0. injection Hs0 as <-. exfalso.
  apply (Qlt_irrefl s). apply Qle_lt_trans with (y := 10.0); assumption.
Qed.

(** X11.  [decay_tick] keeps every organ's id, schema and volatile flag,
    the names of its properties, and every property other than
    [strength] and [fatigue]; it keeps the parameters. *)
Theorem decay_tick_frame
    (self : Oae.OAE) (oid : string) (organ : Oae.DigitalOrgan) :
  get (Oae.digital_organs (Oae.soken self)) oid = Some organ ->
  exists summary self' organ',
    Oae.decay_tick self = Some (summary, self')
    /\ Oae.params self' = Oae.params self
    /\ get (Oae.digital_organs (Oae.soken self')) oid = Some organ'
    /\ Oae.organ_id organ' = Oae.organ_id organ
    /\ Oae.schema organ' = Oae.schema organ
    /\ Oae.volatile organ' = Oae.volatile organ
    /\ keys (Oae.properties organ') = keys (Oae.properties organ)
    /\ same_other_properties (Oae.properties organ) (Oae.properties organ').
Proof.
  intro Hget.
  destruct (decay_tick_at self oid organ Hget)
    as (summary & self' & props1 & props2 & Htick & Hp & Hget' & H1 & H2).
  exists summary, self'. eexists.
  split; [exact Htick |]. split; [exact Hp |]. split; [exact Hget' |].
  simpl. do 3 (split; [reflexivity |]).
  assert (Hk1 : keys props1 = keys (Oae.properties organ)
                /\ same_other_properties (Oae.properties organ) props1).
  { destruct H1 as [[_ ->] | (f & Hf & _ & ->)].
    - split; [reflexivity | intros name _ _; reflexivity].
    - split; [apply (keys_set_present _ _ _ _ Hf) |].
      intros name _ Hn. apply get_set_other.
      intro E. apply Hn. symmetry. exact E. }
  destruct Hk1 as [Hk1 Ho1].
  destruct H2 as [[_ ->] | (s & Hs & _ & _ & ->)]; [split; assumption |].
  split.
  - rewrite (keys_set_present _ _ _ _ Hs). exact Hk1.
  - intros name Hn Hf. rewrite get_set_other.
    + apply (Ho1 name Hn Hf).
    + intro E. apply Hn. symmetry. exact E.
Qed.
End DecayMore.

Section DecayTicks.
Import Py.

Lemma decay_loop_idle (p : Oae.OAEParams) (items : dict Oae.DigitalOrgan) :
  (forall oid organ,
      In (oid, organ) items ->
      ~ 0 < get_or (Oae.properties organ) "fatigue" 0
      /\ ~ (10.0 < get_or (Oae.properties organ) "strength" 0
            /\ get_or (Oae.properties organ) "fatigue" 0 < 1.0)) ->
  Oae.decay_loop p items = Some (items, [], []).
Proof.
  induction items as [| [k o] rest IH]; intro Hidle; [reflexivity |].
  destruct (Hidle k o (or_introl eq_refl)) as [Hn1 Hn2].
  destruct (decay_organ_returns p k o) as (p1 & rec & p2 & atr & _ & _ & Ho).
  destruct (decay_organ_effect p k o _ rec atr Ho) as (_ & _ & Hsame & _).
  destruct (Hsame Hn1 Hn2) as (Eo & Er & Ea).
  assert (Hrest : Oae.decay_loop p rest = Some (rest, [], [])).
  { apply IH. intros oid organ Hin. apply (Hidle oid organ). right. exact Hin. }
  subst rec atr. simpl. rewrite Ho. rewrite Eo. simpl.
  rewrite Hrest. reflexivity.
Qed.

(** X12.  An identity at rest is a fixed point of [decay_tick]: when no
    organ has a positive fatigue and none has a strength above 10.0 with
    a fatigue below 1.0, the tick returns two empty lists and the engine
    as it was. *)
Theorem decay_tick_idle_fixpoint (self : Oae.OAE) :
  (forall oid organ,
      In (oid, organ) (Oae.digital_organs (Oae.soken self)) ->
      ~ 0 < get_or (Oae.properties organ) "fatigue" 0
      /\ ~ (10.0 < get_or (Oae.properties organ) "strength" 0
            /\ get_or (Oae.properties organ) "fatigue" 0 < 1.0)) ->
  Oae.decay_tick self
  = Some ({| Oae.recovered := []; Oae.atrophied := [] |}, self).
Proof.
  intro Hidle. unfold Oae.decay_tick.
  rewrite (decay_loop_idle _ _ Hidle). simpl.
  destruct self as [[d h o m] p c]. reflexivity.
Qed.

Lemma fatigue_step (self : Oae.OAE) (oid : string)
    (organ : Oae.DigitalOrgan) (f : float) :
  0 <= Oae.recovery_rate (Oae.params self) <= 1 ->
  get (Oae.digital_organs (Oae.soken self)) oid = Some organ ->
  get (Oae.properties organ) "fatigue" = Some f ->
  0 <= f ->
  exists summary self' organ' f',
    Oae.decay_tick self = Some (summary, self')
    /\ Oae.params self' = Oae.params self
    /\ get (Oae.digital_organs (Oae.soken self')) oid = Some organ'
    /\ get (Oae.properties organ') "fatigue" = Some f'
    /\ f' == f * (1 - Oae.recovery_rate (Oae.params self))
    /\ 0 <= f'.
Proof.
  intros [Hr0 Hr1] Hget Hf Hpos.
  destruct (decay_tick_at self oid organ Hget)
    as (summary & self' & props1 & props2 & Htick & Hp & Hget' & H1 & H2).
  set (r := Oae.recovery_rate (Oae.params self)) in *.
  assert (exists f', get props1 "fatigue" = Some f'
                     /\ f' == f * (1 - r) /\ 0 <= f')
    as (f' & Hf' & Heq & Hnn).
  { destruct H1 as [[Hn ->] | (f0 & Hf0 & Hf0pos & ->)].
    - exists f. split; [exact Hf |].
      rewrite (get_or_some _ _ _ _ Hf) in Hn.
      assert (f == 0) by lra. split; [nra | exact Hpos].
    - rewrite Hf in Hf0. injection Hf0 as <-.
      eexists. split; [apply get_set_same |].
      unfold max, gtb. destruct (ltb 0.0 (f - f * r)) eqn:E.
      + apply ltb_lt in E. split; lra.
      + apply ltb_ge in E. split; [nra | discriminate]. }
  exists summary, self'. eexists. exists f'.
  split; [exact Htick |]. split; [exact Hp |]. split; [exact Hget' |]. simpl.
  split; [| split; assumption].
  destruct H2 as [[_ ->] | (s & _ & _ & _ & ->)]; [exact Hf' |].
  rewrite get_set_other by discriminate. exact Hf'.
Qed.

(** X13.  With [recovery_rate] in [0, 1], [n] ticks in a row take a
    non-negative fatigue [f] to [f * (1 - recovery_rate)^n]: recovery is
    geometric, and the floor at 0.0 never cuts it short. *)
Theorem decay_ticks_fatigue_geometric (n : nat) :
  forall (self : Oae.OAE) (oid : string) (organ : Oae.DigitalOrgan) (f : float),
    0 <= Oae.recovery_rate (Oae.params self) <= 1 ->
    get (Oae.digital_organs (Oae.soken self)) oid = Some organ ->
    get (Oae.properties organ) "fatigue" = Some f ->
    0 <= f ->
    exists self' organ' f',
      decay_ticks n self = Some self'
      /\ get (Oae.digital_organs (Oae.soken self')) oid = Some organ'
      /\ get (Oae.properties organ') "fatigue" = Some f'
      /\ f' == f * pow (1 - Oae.recovery_rate (Oae.params self)) n.
Proof.
  induction n as [| n IH]; intros self oid organ f Hrr Hget Hf Hpos.
  - exists self, organ, f. simpl. repeat split; try assumption. lra.
  - destruct (fatigue_step self oid organ f Hrr Hget Hf Hpos)
      as (summary & self1 & organ1 & f1 & Htick & Hp & Hget1 & Hf1 & Heq1 & Hnn1).
    rewrite <- Hp in Hrr.
    destruct (IH self1 oid organ1 f1 Hrr Hget1 Hf1 Hnn1)
      as (self' & organ' & f' & Hticks & Hget' & Hf' & Heq).
    exists self', organ', f'. simpl. rewrite Htick. simpl.
    split; [exact Hticks |]. split; [exact Hget' |]. split; [exact Hf' |].
    rewrite Heq, Heq1, Hp. lra.
Qed.

Lemma strength_step (self : Oae.OAE) (oid : string)
    (organ : Oae.DigitalOrgan) (s : float) :
  0 <= Oae.memory_decay (Oae.params self) <= 1 ->
  get (Oae.digital_organs (Oae.soken self)) oid = Some organ ->
  get (Oae.properties organ) "strength" = Some s ->
  9.9 <= s ->
  exists summary self' organ' s',
    Oae.decay_tick self = Some (summary, self')
    /\ Oae.params self' = Oae.params self
    /\ get (Oae.digital_organs (Oae.soken self')) oid = Some organ'
    /\ get (Oae.properties organ') "strength" = Some s'
    /\ 9.9 <= s' /\ s' <= s.
Proof.
  intros [Hm0 Hm1] Hget Hs Hfloor.
  destruct (decay_tick_at self oid organ Hget)
    as (summary & self' & props1 & props2 & Htick & Hp & Hget' & H1 & H2).
  assert (Hs1 : get props1 "strength" = Some s).
  { destruct H1 as [[_ ->] | (f0 & _ & _ & ->)]; [exact Hs |].
    rewrite get_set_other by discriminate. exact Hs. }
  destruct H2 as [[_ ->] | (s0 & Hs0 & Hbig & _ & ->)].
  - exists summary, self', (Oae.with_properties organ props1), s.
    split; [exact Htick |]. split; [exact Hp |]. split; [exact Hget' |].
    split; [exact Hs1 |]. split; [exact Hfloor | apply Qle_refl].
  - rewrite Hs1 in Hs0. injection Hs0 as <-.
    exists summary, self'. do 2 eexists.
    split; [exact Htick |]. split; [exact Hp |].
    split; [exact Hget' |]. simpl. split; [apply get_set_same |].
    split; nra.
Qed.

(** X14.  With [memory_decay] in [0, 1], no number of ticks takes a
    strength that is at least 9.9 below 9.9, or above where it was:
    atrophy can undercut the baseline of 10.0 by one percent at most. *)
Theorem decay_ticks_strength_floor (n : nat) :
  forall (self : Oae.OAE) (oid : string) (organ : Oae.DigitalOrgan) (s : float),
    0 <= Oae.memory_decay (Oae.params self) <= 1 ->
    get (Oae.digital_organs (Oae.soken self)) oid = Some organ ->
    get (Oae.properties organ) "strength" = Some s ->
    9.9 <= s ->
    exists self' organ' s',
      decay_ticks n self = Some self'
      /\ get (Oae.digital_organs (Oae.soken self')) oid = Some organ'
      /\ get (Oae.properties organ') "strength" = Some s'
      /\ 9.9 <= s' /\ s' <= s.
Proof.
  induction n as [| n IH]; intros self oid organ s Hmd Hget Hs Hfloor.
  - exists self, organ, s. simpl. repeat split; try assumption. apply Qle_refl.
  - destruct (strength_step self oid organ s Hmd Hget Hs Hfloor)
      as (summary & self1 & organ1 & s1 & Htick & Hp & Hget1 & Hs1 & Hlo & Hhi).
    rewrite <- Hp in Hmd.
    destruct (IH self1 oid organ1 s1 Hmd Hget1 Hs1 Hlo)
      as (self' & organ' & s' & Hticks & Hget' & Hs' & Hlo' & Hhi').
    exists self', organ', s'. simpl. rewrite Htick. simpl.
    split; [exact Hticks |]. split; [exact Hget' |]. split; [exact Hs' |].
    split; [exact Hlo' | apply Qle_trans with (y := s1); assumption].
Qed.
End DecayTicks.

Lemma decay_tick_fatigue_never_grows_witness :
  0 <= Oae.recovery_rate (Oae.params Sample.tired)
  /\ exists summary self' organ' f',
       Oae.decay_tick Sample.tired = Some (summary, self')
       /\ Py.get (Oae.digital_organs (Oae.soken self')) "arm_right" = Some organ'
       /\ Py.get (Oae.properties organ') "fatigue" = Some f'
       /\ f' <= 10.0.
Proof.
  assert (H : 0 <= Oae.recovery_rate (Oae.params Sample.tired)) by discriminate.
  split; [exact H |].
  exact (decay_tick_fatigue_never_grows Sample.tired "arm_right" Sample.worn
           10.0 H eq_refl eq_refl).
Defined.

Lemma decay_tick_full_recovery_witness :
  1 <= Oae.recovery_rate (Oae.params Demo.eager)
  /\ exists summary self' organ',
       Oae.decay_tick Demo.eager = Some (summary, self')
       /\ Py.get (Oae.digital_organs (Oae.soken self')) "arm_right" = Some organ'
       /\ Py.get (Oae.properties organ') "fatigue" = Some 0.0.
Proof.
  assert (H : 1 <= Oae.recovery_rate (Oae.params Demo.eager)) by discriminate.
  split; [exact H |].
  apply (decay_tick_full_recovery Demo.eager "arm_right" Sample.worn 10.0 H);
    reflexivity.
Defined.

Lemma decay_tick_keeps_baseline_strength_witness :
  exists summary self' organ',
    Oae.decay_tick Sample.engine = Some (summary, self')
    /\ Py.get (Oae.digital_organs (Oae.soken self')) "arm_left" = Some organ'
    /\ Py.get (Oae.properties organ') "strength" = Some 10.0.
Proof.
  apply (decay_tick_keeps_baseline_strength Sample.engine "arm_left"
           (Sample.limb "arm_left" "motor_v1_precision" false) 10.0);
    [reflexivity | reflexivity | discriminate].
Defined.

Lemma decay_tick_frame_witness :
  exists summary self' organ',
    Oae.decay_tick Sample.tired = Some (summary, self')
    /\ Py.get (Oae.digital_organs (Oae.soken self')) "arm_right" = Some organ'
    /\ Oae.schema organ' = "motor_v1_power"
    /\ Py.keys (Oae.properties organ') = ["strength"; "fatigue"].
Proof.
  destruct (decay_tick_frame Sample.tired "arm_right" Sample.worn eq_refl)
    as (summary & self' & organ' & Htick & _ & Hget & _ & Hschema & _ & Hkeys & _).
  exists summary, self', organ'. auto.
Defined.

Lemma sample_engine_idle :
  forall oid organ,
    In (oid, organ) (Oae.digital_organs (Oae.soken Sample.engine)) ->
    ~ 0 < Py.get_or (Oae.properties organ) "fatigue" 0
    /\ ~ (10.0 < Py.get_or (Oae.properties organ) "strength" 0
          /\ Py.get_or (Oae.properties organ) "fatigue" 0 < 1.0).
Proof.
  intros oid organ Hin. simpl in Hin.
  destruct Hin as [E | [E | [E | []]]]; injection E as _ <-;
    (split; [intro H; discriminate H | intros [H _]; discriminate H]).
Qed.

Lemma decay_tick_idle_fixpoint_witness :
  Oae.decay_tick Sample.engine
  = Some ({| Oae.recovered := []; Oae.atrophied := [] |}, Sample.engine).
Proof.
  exact (decay_tick_idle_fixpoint Sample.engine sample_engine_idle).
Defined.

Lemma decay_ticks_fatigue_geometric_witness :
  0 <= Oae.recovery_rate (Oae.params Sample.tired) <= 1
  /\ exists self' organ' f',
       decay_ticks 3 Sample.tired = Some self'
       /\ Py.get (Oae.digital_organs (Oae.soken self')) "arm_right" = Some organ'
       /\ Py.get (Oae.properties organ') "fatigue" = Some f'
       /\ f' == 10.0 * pow (1 - 0.3) 3.
Proof.
  assert (H : 0 <= Oae.recovery_rate (Oae.params Sample.tired) <= 1)
    by (split; discriminate).
  split; [exact H |].
  apply (decay_ticks_fatigue_geometric 3 Sample.tired "arm_right" Sample.worn
           10.0 H); [reflexivity | reflexivity | discriminate].
Defined.

Lemma decay_ticks_strength_floor_witness :
  0 <= Oae.memory_decay (Oae.params Sample.tired) <= 1
  /\ exists self' organ' s',
       decay_ticks 3 Sample.tired = Some self'
       /\ Py.get (Oae.digital_organs (Oae.soken self')) "arm_right" = Some organ'
       /\ Py.get (Oae.properties organ') "strength" = Some s'
       /\ 9.9 <= s' /\ s' <= 10.091.
Proof.
  assert (H : 0 <= Oae.memory_decay (Oae.params Sample.tired) <= 1)
    by (split; discriminate).
  split; [exact H |].
  apply (decay_ticks_strength_floor 3 Sample.tired "arm_right" Sample.worn
           10.091 H); [reflexivity | reflexivity | discriminate].
Defined.

(** ** Further properties of [src/core.py] *)

Section CoreMore.
Import Py.
Context {num : Numerals}.

Lemma max_min_unit (x : float) : 0 <= max 0.0 (min 1.0 x) <= 1.
Proof.
  unfold max, gtb. destruct (ltb 0.0 (min 1.0 x)) eqn:E.
  - apply ltb_lt in E. split; [lra |].
    apply Qle_trans with (y := 1.0); [apply min_le_l | discriminate].
  - split; discriminate.
Qed.

Lemma is_target_known (context : dict pyval) (organs : dict Core.DigitalOrgan)
    (k : string) (organ : Core.DigitalOrgan) :
  targets context organs k organ ->
  Core.is_target (get_or context "organ_id" PNone) organs = true.
Proof.
  intros (Hid & Hk & Hget). rewrite Hid. unfold Core.is_target, mem. simpl.
  apply String.eqb_neq in Hk. rewrite Hk, Hget. reflexivity.
Qed.

(** X15.  Whatever the stimulus and the rate stored before, the
    [effective_learn_rate] that [resonance] of [src/core.py] stores and
    reports lies in [0, 1]. *)
Theorem core_resonance_learn_rate_clamped
    (self self' : Core.OAE) (now : float) (context report : dict pyval) :
  Core.resonance self now context = Some (report, self') ->
  exists lr,
    get (Core.meta (Core.soken self')) "effective_learn_rate" = Some (PFloat lr)
    /\ get report "learn_rate_new" = Some (PFloat lr)
    /\ 0 <= lr <= 1.
Proof.
  unfold Core.resonance. intro H.
  destruct (to_float (get_or context "intensity" (PFloat 0.5))) as [inten |];
    [simpl in H | discriminate H].
  destruct (to_float (get_or context "alignment" (PFloat 0.5))) as [align |];
    [simpl in H | discriminate H].
  destruct (to_float (get_or (Core.meta (Core.soken self))
                        "effective_learn_rate"
                        (PFloat (Core.learn_rate (Core.params self)))))
    as [prev_lr |]; [simpl in H | discriminate H].
  injection H as <- <-. eexists. split; [| split; [reflexivity |]].
  - simpl.
    destruct (Core.is_target (get_or context "organ_id" PNone)
                (Core.digital_organs (Core.soken self))).
    + rewrite get_set_other by discriminate.
      rewrite get_set_other by discriminate. apply get_set_same.
    + apply get_set_same.
  - apply max_min_unit.
Qed.

(** X16.  [resonance] of [src/core.py] writes no organ, parameter or
    checkpoint directory.  When the stimulus names an organ it records
    the organ id under [hot_organ] and the time under [hot_organ_at];
    when it names none it leaves both keys as they were. *)
Theorem core_resonance_hot_organ
    (self self' : Core.OAE) (now : float) (context report : dict pyval) :
  Core.resonance self now context = Some (report, self') ->
  Core.digital_organs (Core.soken self') = Core.digital_organs (Core.soken self)
  /\ Core.params self' = Core.params self
  /\ Core.checkpoint_dir self' = Core.checkpoint_dir self
  /\ (forall k organ,
         targets context (Core.digital_organs (Core.soken self)) k organ ->
         get (Core.meta (Core.soken self')) "hot_organ" = Some (PStr k)
         /\ get (Core.meta (Core.soken self')) "hot_organ_at"
            = Some (PFloat now))
  /\ (unknown_organ context (Core.digital_organs (Core.soken self)) ->
      get (Core.meta (Core.soken self')) "hot_organ"
      = get (Core.meta (Core.soken self)) "hot_organ"
      /\ get (Core.meta (Core.soken self')) "hot_organ_at"
         = get (Core.meta (Core.soken self)) "hot_organ_at").
Proof.
  unfold Core.resonance. intro H.
  destruct (to_float (get_or context "intensity" (PFloat 0.5))) as [inten |];
    [simpl in H | discriminate H].
  destruct (to_float (get_or context "alignment" (PFloat 0.5))) as [align |];
    [simpl in H | discriminate H].
  destruct (to_float (get_or (Core.meta (Core.soken self))
                        "effective_learn_rate"
                        (PFloat (Core.learn_rate (Core.params self)))))
    as [prev_lr |]; [simpl in H | discriminate H].
  injection H as _ <-. simpl.
  do 3 (split; [reflexivity |]). split.
  - intros k organ Ht. rewrite (is_target_known _ _ _ _ Ht).
    destruct Ht as (Hid & _ & _). rewrite Hid. split.
    + rewrite get_set_other by discriminate. apply get_set_same.
    + apply get_set_same.
  - intro Hunk. rewrite (is_target_unknown _ _ Hunk).
    split; apply get_set_other; discriminate.
Qed.

Lemma pow_unit (c : float) (n : nat) : 0 <= c <= 1 -> 0 <= pow c n <= 1.
Proof.
  intros [H0 H1]. induction n as [| n [IH0 IH1]]; simpl.
  - split; discriminate.
  - split; nra.
Qed.

Lemma core_decay_tick_step (self : Core.OAE) (emo : float) :
  affect_of self = Some emo ->
  exists summary self',
    Core.decay_tick self = Some (summary, self')
    /\ Core.params self' = Core.params self
    /\ affect_of self'
       = Some (emo * (1.0 - 0.5 * Core.memory_decay (Core.params self))).
Proof.
  intro H. unfold Core.decay_tick. unfold affect_of in H. rewrite H. simpl.
  do 2 eexists. split; [reflexivity |]. split; [reflexivity |].
  unfold affect_of, get_or. simpl. rewrite get_set_same. reflexivity.
Qed.

(** X17.  Once [float] accepts the [affect_level] an engine of
    [src/core.py] holds, no number of ticks raises, and [n] ticks take
    the affect [a] to [a * (1 - 0.5 * memory_decay)^n]; for
    [memory_decay] in [0, 1] a non-negative affect stays between 0 and
    where it was. *)
Theorem core_decay_ticks_affect_geometric (n : nat) :
  forall (self : Core.OAE) (emo : float),
    affect_of self = Some emo ->
    exists self' x,
      core_decay_ticks n self = Some self'
      /\ affect_of self' = Some x
      /\ x == emo * pow (1.0 - 0.5 * Core.memory_decay (Core.params self)) n
      /\ (0 <= Core.memory_decay (Core.params self) <= 1 -> 0 <= emo ->
          0 <= x <= emo).
Proof.
  induction n as [| n IH]; intros self emo Hemo.
  - exists self, emo. simpl. split; [reflexivity |]. split; [exact Hemo |].
    split; [lra | intros _ H; split; [exact H | apply Qle_refl]].
  - destruct (core_decay_tick_step self emo Hemo)
      as (summary & self1 & Htick & Hp & Hemo1).
    destruct (IH self1 _ Hemo1) as (self' & x & Hticks & Hx & Heq & _).
    rewrite Hp in Heq.
    exists self', x. simpl. rewrite Htick. simpl.
    split; [exact Hticks |]. split; [exact Hx |].
    set (c := 1.0 - 0.5 * Core.memory_decay (Core.params self)) in *.
    assert (Heq' : x == emo * (c * pow c n)) by (rewrite Heq; lra).
    split; [exact Heq' |].
    intros [Hm0 Hm1] Hpos.
    assert (Hc : 0 <= c <= 1) by (subst c; split; lra).
    destruct (pow_unit c (S n) Hc) as [Hp0 Hp1]. simpl in Hp0, Hp1.
    rewrite Heq'. split; nra.
Qed.
End CoreMore.

Lemma core_resonance_learn_rate_clamped_witness :
  exists report self' lr,
    @Core.resonance Sample.numerals Sample.oae 0 Sample.kick
    = Some (report, self')
    /\ Py.get (Core.meta (Core.soken self')) "effective_learn_rate"
       = Some (Py.PFloat lr)
    /\ 0 <= lr <= 1.
Proof.
  destruct (@Core.resonance Sample.numerals Sample.oae 0 Sample.kick)
    as [[report self'] |] eqn:E; [| vm_compute in E; discriminate E].
  destruct (@core_resonance_learn_rate_clamped Sample.numerals _ _ _ _ _ E)
    as (lr & Hmeta & _ & Hlr).
  exists report, self', lr. auto.
Defined.

Lemma core_resonance_hot_organ_witness :
  targets Sample.kick (Core.digital_organs (Core.soken Sample.oae))
          "legs" (Sample.organ "legs" "locomotion_v1" false)
  /\ exists report self',
       @Core.resonance Sample.numerals Sample.oae 3 Sample.kick
       = Some (report, self')
       /\ Py.get (Core.meta (Core.soken self')) "hot_organ"
          = Some (Py.PStr "legs")
       /\ Py.get (Core.meta (Core.soken self')) "hot_organ_at"
          = Some (Py.PFloat 3).
Proof.
  assert (Ht : targets Sample.kick (Core.digital_organs (Core.soken Sample.oae))
                 "legs" (Sample.organ "legs" "locomotion_v1" false)).
  { repeat split. discriminate. }
  split; [exact Ht |].
  destruct (@Core.resonance Sample.numerals Sample.oae 3 Sample.kick)
    as [[report self'] |] eqn:E; [| vm_compute in E; discriminate E].
  destruct (@core_resonance_hot_organ Sample.numerals _ _ _ _ _ E)
    as (_ & _ & _ & Hhot & _).
  exists report, self'. split; [reflexivity |]. exact (Hhot _ _ Ht).
Defined.

Lemma core_decay_ticks_affect_geometric_witness :
  affect_of (num := Sample.numerals) Sample.oae = Some 0.7
  /\ exists self' x,
       @core_decay_ticks Sample.numerals 4 Sample.oae = Some self'
       /\ affect_of (num := Sample.numerals) self' = Some x
       /\ x == 0.7 * pow (1.0 - 0.5 * 0.55) 4.
Proof.
  split; [reflexivity |].
  destruct (@core_decay_ticks_affect_geometric Sample.numerals 4 Sample.oae
              0.7 eq_refl)
    as (self' & x & Hticks & Hx & Heq & _).
  exists self', x. auto.
Defined.

(** ** Further properties of [checkpoint] *)

Section CheckpointMore.
Import Py.
Context {codec : Codec} {os : Os}.

Lemma path_join_absolute (a b : string) :
  prefix "/" b = true -> path_join a b = b.
Proof. intro H. unfold path_join. rewrite H. reflexivity. Qed.

Lemma prefix_slash_append (a b : string) :
  prefix "/" a = true -> prefix "/" (a ++ b) = true.
Proof.
  intro H. apply prefix_correct in H.
  destruct a as [| c a']; [discriminate H |].
  injection H as -> _.
  change (String "/" a' ++ b) with (String "/" (a' ++ b)).
  destruct (a' ++ b); reflexivity.
Qed.

(** What a checkpoint that returns has returned and had written. *)
Lemma oae_checkpoint_returned (self : Oae.OAE) (now : float) (label : string)
    (w w' : world) (returned : string) :
  Oae.checkpoint self now label w = Some (returned, w') ->
  returned = Oae.path self now label
  /\ exists w1,
       makedirs (Oae.ckpt_dir self) w = Some w1
       /\ write_file returned (Oae.data_bytes self now label) w1 = Some w'.
Proof.
  unfold Oae.checkpoint.
  destruct (makedirs (Oae.ckpt_dir self) w) as [w1 |] eqn:Em; simpl;
    [| discriminate].
  destruct (write_file (Oae.path self now label)
              (Oae.data_bytes self now label) w1) as [w2 |] eqn:Ew; simpl;
    [| discriminate].
  intro H. injection H as <- <-. split; [reflexivity |].
  exists w1. split; [reflexivity | exact Ew].
Qed.

Lemma core_checkpoint_returned (self : Core.OAE) (now : float)
    (label : string) (w w' : world) (returned : string) :
  Core.checkpoint self now label w = Some (returned, w') ->
  exists dir w1,
    Core.checkpoint_dir self = PStr dir
    /\ returned = Core.path dir self now label
    /\ makedirs dir w = Some w1
    /\ write_file returned (Core.raw self now label) w1 = Some w'.
Proof.
  unfold Core.checkpoint.
  destruct (Core.checkpoint_dir self) as [| b | x | dir]; try discriminate.
  destruct (makedirs dir w) as [w1 |] eqn:Em; simpl; [| discriminate].
  destruct (write_file (Core.path dir self now label)
              (Core.raw self now label) w1) as [w2 |] eqn:Ew; simpl;
    [| discriminate].
  intro H. injection H as <- <-. exists dir, w1.
  split; [reflexivity |]. split; [reflexivity |].
  split; [exact Em | exact Ew].
Qed.

(** X18.  The checkpoint directory does not confine the file.  In
    [src/core.py] a label that starts with [/] makes the path of the
    checkpoint the absolute path made of the label alone, whatever the
    directory: that is where a [checkpoint] that returns has had the bytes
    written, and what it returns.  In [src/oae.py] the same holds when the
    last [:]-separated part of the identity id starts with [/]. *)
Theorem checkpoint_absolute_name_escapes_directory :
  (forall (self : Core.OAE) (now : float) (label : string),
      prefix "/" label = true ->
      let name := label ++ "_"
                  ++ take 16 (Core.sha256_hex (Core.raw self now label))
                  ++ ".json" in
      (forall dir, Core.path dir self now label = name)
      /\ forall (w w' : world) (returned : string),
           Core.checkpoint self now label w = Some (returned, w') ->
           returned = name
           /\ exists w1, write_file name (Core.raw self now label) w1 = Some w')
  /\
  (forall (self : Oae.OAE) (now : float) (label : string),
      prefix "/" (last_segment ":" (Oae.did (Oae.soken self))) = true ->
      let name := last_segment ":" (Oae.did (Oae.soken self)) ++ "_" ++ label
                  ++ "_"
                  ++ take 12 (Oae.sha256_hex (Oae.data_bytes self now label))
                  ++ ".json" in
      Oae.path self now label = name
      /\ forall (w w' : world) (returned : string),
           Oae.checkpoint self now label w = Some (returned, w') ->
           returned = name
           /\ exists w1,
                write_file name (Oae.data_bytes self now label) w1 = Some w').
Proof.
  split.
  - intros self now label Habs name.
    assert (Hpath : forall dir, Core.path dir self now label = name).
    { intro dir. unfold Core.path.
      apply path_join_absolute, prefix_slash_append, Habs. }
    split; [exact Hpath |].
    intros w w' returned H.
    destruct (core_checkpoint_returned _ _ _ _ _ _ H)
      as (dir & w1 & _ & Hret & _ & Hw).
    rewrite Hpath in Hret. subst returned.
    split; [reflexivity |]. exists w1. exact Hw.
  - intros self now label Habs name.
    assert (Hpath : Oae.path self now label = name).
    { unfold Oae.path. apply path_join_absolute.
      unfold Oae.filename. apply prefix_slash_append, Habs. }
    split; [exact Hpath |].
    intros w w' returned H.
    destruct (oae_checkpoint_returned _ _ _ _ _ _ H) as (Hret & w1 & _ & Hw).
    rewrite Hpath in Hret. subst returned.
    split; [reflexivity |]. exists w1. exact Hw.
Qed.
End CheckpointMore.

Lemma checkpoint_absolute_name_escapes_directory_witness :
  prefix "/" "/tmp/snap" = true
  /\ @Core.checkpoint Demo.codec Demo.os Sample.oae 0 "/tmp/snap" []
     = Some ("/tmp/snap_e3b0c44298fc1c14.json",
             [("/tmp/snap_e3b0c44298fc1c14.json", "{}")])
  /\ forall dir,
       @Core.path Demo.codec dir Sample.oae 0 "/tmp/snap"
       = "/tmp/snap_e3b0c44298fc1c14.json".
Proof.
  split; [reflexivity |]. split; [reflexivity |].
  exact (proj1 (proj1 (@checkpoint_absolute_name_escapes_directory
                         Demo.codec Demo.os)
                  Sample.oae 0 "/tmp/snap" eq_refl)).
Defined.

(** ** The identity part of a checkpoint name ([src/oae.py]) *)

Section IdentityPart.
Import Py.
Context {codec : Codec} {os : Os}.

Lemma append_nil_r (s : string) : s ++ "" = s.
Proof. induction s as [| c s IH]; simpl; [| rewrite IH]; reflexivity. Qed.

Lemma append_assoc (a b c : string) : (a ++ b) ++ c = a ++ (b ++ c).
Proof. induction a as [| x a IH]; simpl; [| rewrite IH]; reflexivity. Qed.

Lemma has_char_append (c : ascii) (a b : string) :
  has_char c (a ++ b) = has_char c a || has_char c b.
Proof.
  induction a as [| x a IH]; simpl; [reflexivity |].
  rewrite IH. apply orb_assoc.
Qed.

Lemma has_char_take (c : ascii) (n : nat) (s : string) :
  has_char c s = false -> has_char c (take n s) = false.
Proof.
  unfold take. revert n. induction s as [| x s IH]; intros n H.
  - destruct n; reflexivity.
  - destruct n as [| n]; [reflexivity |]. simpl in H |- *.
    apply orb_false_iff in H. destruct H as [Hx Hs].
    rewrite Hx. simpl. apply (IH n Hs).
Qed.

Lemma last_segment_from_no_sep (sep : ascii) (s acc : string) :
  has_char sep s = false -> last_segment_from sep acc s = acc ++ s.
Proof.
  revert acc. induction s as [| c s IH]; intros acc H; simpl.
  - symmetry. apply append_nil_r.
  - simpl in H. apply orb_false_iff in H. destruct H as [Hc Hs].
    rewrite Hc, (IH _ Hs), append_assoc. reflexivity.
Qed.

Lemma last_segment_from_reset (sep : ascii) (a b acc : string) :
  last_segment_from sep acc (a ++ String sep b) = last_segment_from sep "" b.
Proof.
  revert acc. induction a as [| c a IH]; intro acc; simpl.
  - rewrite Ascii.eqb_refl. reflexivity.
  - destruct (Ascii.eqb c sep); apply IH.
Qed.

Lemma last_segment_from_clean (sep : ascii) (s acc : string) :
  has_char sep acc = false ->
  has_char sep (last_segment_from sep acc s) = false.
Proof.
  revert acc. induction s as [| c s IH]; intros acc H; simpl; [exact H |].
  destruct (Ascii.eqb c sep) eqn:E; apply IH; [reflexivity |].
  rewrite has_char_append, H. simpl. rewrite E. reflexivity.
Qed.

Lemma last_segment_after (a b : string) :
  has_char ":" b = false -> last_segment ":" (a ++ ":" ++ b) = b.
Proof.
  intro H. unfold last_segment.
  change (a ++ ":" ++ b) with (a ++ String ":" b).
  rewrite last_segment_from_reset. apply (last_segment_from_no_sep _ _ "" H).
Qed.

(** X20.  The path of a checkpoint of [src/oae.py], which is what a
    [checkpoint] that returns has returned, is the directory joined with
    a name whose identity part never contains a colon.  For an identity
    id [a:b] with no colon in [b] that part is [b]; for an id without a
    colon it is the whole id. *)
Theorem checkpoint_identity_part
    (self : Oae.OAE) (now : float) (label : string) :
  let id := last_segment ":" (Oae.did (Oae.soken self)) in
  Oae.path self now label
  = path_join (Oae.ckpt_dir self)
      (id ++ "_" ++ label ++ "_"
       ++ take 12 (Oae.sha256_hex (Oae.data_bytes self now label)) ++ ".json")
  /\ (forall (w w' : world) (returned : string),
         Oae.checkpoint self now label w = Some (returned, w') ->
         returned = Oae.path self now label)
  /\ has_char ":" id = false
  /\ (forall a b,
         Oae.did (Oae.soken self) = a ++ ":" ++ b ->
         has_char ":" b = false -> id = b)
  /\ (has_char ":" (Oae.did (Oae.soken self)) = false ->
      id = Oae.did (Oae.soken self)).
Proof.
  intro id. split; [reflexivity |]. split; [| split; [| split]].
  - intros w w' returned H.
    exact (proj1 (oae_checkpoint_returned _ _ _ _ _ _ H)).
  - apply last_segment_from_clean. reflexivity.
  - intros a b Hdid Hb. subst id. rewrite Hdid. apply last_segment_after, Hb.
  - intro H. apply (last_segment_from_no_sep _ _ "" H).
Qed.

(** X21.  In [run_simulation] the identity id is ["did:world:"] followed
    by the mock world id; when the digest holds no colon (a hex digest
    holds none), the name of every checkpoint of that identity starts
    with the mock world id, ["0x"] and the first 16 characters of the
    digest of the clock reading: such is the path of the checkpoint, and
    what a [checkpoint] that returns has returned. *)
Theorem simulation_checkpoint_named_by_world_id
    (self : Oae.OAE) (time_ns : Z) (now : float) (label : string) :
  Oae.did (Oae.soken self)
  = Driver.user_did (Driver.generate_mock_world_id time_ns) ->
  has_char ":" (sha256 (digits time_ns)) = false ->
  let named :=
    path_join (Oae.ckpt_dir self)
      ("0x" ++ take 16 (sha256 (digits time_ns)) ++ "_" ++ label ++ "_"
       ++ take 12 (Oae.sha256_hex (Oae.data_bytes self now label)) ++ ".json") in
  Oae.path self now label = named
  /\ forall (w w' : world) (returned : string),
       Oae.checkpoint self now label w = Some (returned, w') ->
       returned = named.
Proof.
  intros Hdid Hhex named.
  assert (Hpath : Oae.path self now label = named).
  { unfold Oae.path, Oae.filename, Oae.file_hash. rewrite Hdid.
    unfold Driver.user_did, Driver.generate_mock_world_id, Oae.sha256_hex.
    change ("did:world:" ++ "0x" ++ take 16 (sha256 (digits time_ns)))
      with ("did:world" ++ ":" ++ ("0x" ++ take 16 (sha256 (digits time_ns)))).
    rewrite last_segment_after; [reflexivity |].
    simpl. apply has_char_take, Hhex. }
  split; [exact Hpath |].
  intros w w' returned H. rewrite <- Hpath.
  exact (proj1 (oae_checkpoint_returned _ _ _ _ _ _ H)).
Qed.
End IdentityPart.

Lemma checkpoint_identity_part_witness :
  Oae.did (Oae.soken Sample.engine) = "did:world" ++ ":" ++ "0x5f2c9a1b7d3e4f60"
  /\ Py.last_segment ":" (Oae.did (Oae.soken Sample.engine))
     = "0x5f2c9a1b7d3e4f60".
Proof.
  split; [reflexivity |].
  destruct (@checkpoint_identity_part Demo.codec Demo.os Sample.engine 0
              "post_workout")
    as (_ & _ & _ & Hafter & _).
  apply (Hafter "did:world" "0x5f2c9a1b7d3e4f60"); reflexivity.
Defined.

Lemma simulation_checkpoint_named_by_world_id_witness :
  has_char ":" (@Py.sha256 Demo.codec (Py.digits 1762300800000000000)) = false
  /\ @Oae.path Demo.codec Demo.simulated 0 "post_workout"
     = "./oae_checkpoints/0xe3b0c44298fc1c14_post_workout_e3b0c44298fc.json"
  /\ option_map fst
       (@Oae.checkpoint Demo.codec Demo.os Demo.simulated 0 "post_workout" [])
     = Some "./oae_checkpoints/0xe3b0c44298fc1c14_post_workout_e3b0c44298fc.json".
Proof.
  split; [reflexivity |].
  split; [| reflexivity].
  exact (proj1 (@simulation_checkpoint_named_by_world_id Demo.codec Demo.os
                  Demo.simulated 1762300800000000000 0 "post_workout"
                  eq_refl eq_refl)).
Defined.
